(** * GlobalExecutor: Swift's interface to the global executor

    A shallow embedding of [stdlib/public/Concurrency/GlobalExecutor.cpp]:
    the four enqueue entry points and their hook slots, the main-actor
    executor setter, [swift_task_getMainExecutor] and
    [ExecutorRef::isMainExecutor].

    The entry points are written in a small state-and-log monad.  The state
    is the file's mutable globals (the hook slots and the two override
    cells) together with the memory holding the job records; the log is the
    sequence of interactions the body of a function has with code outside
    the file (the tracing sink, the thread sanitizer, [stderr], an installed
    hook, a backend engine), in program order.

    The derived-conformance utilities of [lib/Sema/DerivedConformances.cpp]
    follow in the module [DerivedConformance]. *)

From stdpp Require Import base numbers option list strings gmap pretty.
From Stdlib Require Import Ascii.

Local Open Scope N_scope.

(** ** Pointers *)

(** Every pointer of the file is compared against null or against another
    pointer and is otherwise passed along: an address, null being 0. *)
Definition ptr : Type := N.
Definition nullptr : ptr := 0.

(** [if (p)] on a pointer. *)
Definition nonnull (p : ptr) : bool := negb (p =? nullptr).

Abbreviation JobPtr := ptr (only parsing).
Abbreviation HeapObjectPtr := ptr (only parsing).
Abbreviation MetadataPtr := ptr (only parsing).
Abbreviation WitnessTablePtr := ptr (only parsing).
Abbreviation FnPtr := ptr (only parsing).

(** [uintptr_t]; the one value of that type in the file is stored in a cell
    and never computed with. *)
Abbreviation uintptr_t := N (only parsing).
(** [JobDelay] is [unsigned long long]; [long long] and [int] are signed.
    The entry points pass these along and do no arithmetic on them. *)
Abbreviation JobDelay := N (only parsing).
Abbreviation long_long := Z (only parsing).
Abbreviation int := Z (only parsing).

(** ** Build configuration *)

(** The preprocessor symbols the file tests, and the two link-time constants
    that its dispatch branch names: the address of [_dispatch_main_q] and the
    table returned by
    [_swift_task_getDispatchQueueSerialExecutorWitnessTable()]. *)
Record Target : Type := {
  SWIFT_CONCURRENCY_COOPERATIVE_GLOBAL_EXECUTOR : bool;
  SWIFT_CONCURRENCY_ENABLE_DISPATCH : bool;
  _dispatch_main_q : HeapObjectPtr;
  _swift_task_getDispatchQueueSerialExecutorWitnessTable : WitnessTablePtr
}.

(** The backend engine the [#if] chain at lines 104-110 includes. *)
Inductive Backend : Type :=
| CooperativeGlobalExecutor
| DispatchGlobalExecutor
| NonDispatchGlobalExecutor.

Definition backend (t : Target) : Backend :=
  if SWIFT_CONCURRENCY_COOPERATIVE_GLOBAL_EXECUTOR t then
    CooperativeGlobalExecutor
  else if SWIFT_CONCURRENCY_ENABLE_DISPATCH t then DispatchGlobalExecutor
  else NonDispatchGlobalExecutor.

(** ** Executor references *)

(** Modelled from the spec: [swift/ABI/Executor.h], which declares
    [ExecutorRef] with [generic], [forOrdinary] and [isGeneric], is not among
    the sources.  The spec has an executor reference as "a pair (identity,
    capability-table)", "constructible from an identity handle and a
    capability table", whose identity is "a stable handle (pointer-sized)
    used for equality comparison" while "capability tables are not
    compared".  The generic reference is the one that names no executor:
    null identity, no table; being generic is a test of the identity. *)
Record ExecutorRef : Type := {
  Identity : HeapObjectPtr;
  Implementation : uintptr_t
}.

Definition generic : ExecutorRef :=
  {| Identity := nullptr; Implementation := 0 |}.

Definition forOrdinary (identity : HeapObjectPtr)
    (witnessTable : WitnessTablePtr) : ExecutorRef :=
  {| Identity := identity; Implementation := witnessTable |}.

Definition isGeneric (e : ExecutorRef) : bool := Identity e =? nullptr.

(** ** Jobs *)

(** Modelled from the spec: [swift/ABI/Task.h] is not among the sources.  A
    job is the spec's "opaque, externally-owned record containing at minimum
    an entry function/continuation and scheduling metadata (priority, an
    optional associated executor reference)". *)
Record Job : Type := {
  RunJob : FnPtr;
  Priority : N;
  AssociatedExecutor : option ExecutorRef
}.

(** ** The globals and the memory *)

(** The hook slots of lines 73-93, the override cells of lines 101-102, and
    the job records in memory, by address. *)
Record World : Type := {
  swift_task_enqueueGlobal_hook : FnPtr;
  swift_task_enqueueGlobalWithDelay_hook : FnPtr;
  swift_task_enqueueGlobalWithDeadline_hook : FnPtr;
  swift_task_enqueueMainExecutor_hook : FnPtr;
  mainExecutorIdentityOverride : HeapObjectPtr;
  mainExecutorImplementationOverride : uintptr_t;
  jobs : gmap N Job
}.

(** The globals as the loader leaves them: every hook slot has the
    initializer [= nullptr]; the two [static std::atomic] cells have none
    and are zero-initialized. *)
Definition process_start (memory : gmap N Job) : World := {|
  swift_task_enqueueGlobal_hook := nullptr;
  swift_task_enqueueGlobalWithDelay_hook := nullptr;
  swift_task_enqueueGlobalWithDeadline_hook := nullptr;
  swift_task_enqueueMainExecutor_hook := nullptr;
  mainExecutorIdentityOverride := nullptr;
  mainExecutorImplementationOverride := 0;
  jobs := memory
|}.

(** ** Interactions with code outside the file *)

(** The calls of [concurrency::trace], one constructor per function, with
    the arguments the function is given. *)
Inductive TraceEvent : Type :=
| job_enqueue_global (job : JobPtr)
| job_enqueue_global_with_delay (delay : JobDelay) (job : JobPtr)
| job_enqueue_main_executor (job : JobPtr).

Definition trace_job (e : TraceEvent) : JobPtr :=
  match e with
  | job_enqueue_global job => job
  | job_enqueue_global_with_delay _ job => job
  | job_enqueue_main_executor job => job
  end.

(** The argument lists of the five entry points, in declaration order. *)
Inductive Args : Type :=
| ArgsGlobal (job : JobPtr)
| ArgsGlobalWithDelay (delay : JobDelay) (job : JobPtr)
| ArgsGlobalWithDeadline (sec nsec tsec tnsec : long_long) (clock : int)
    (job : JobPtr)
| ArgsMainExecutor (job : JobPtr)
| ArgsSetMainActorExecutor (executor : HeapObjectPtr)
    (selfType : MetadataPtr) (wtable : WitnessTablePtr).

(** The functions the included backend defines; a value of this type is a
    reference to one of them, as handed to a hook for its [original]. *)
Inductive ImplFn : Type :=
| EnqueueGlobalImpl
| EnqueueGlobalWithDelayImpl
| EnqueueGlobalWithDeadlineImpl
| EnqueueMainExecutorImpl
| SetMainActorExecutorImpl.

Inductive Event : Type :=
| TsanRelease (job : JobPtr)
| Trace (e : TraceEvent)
| Stderr (line : string)
| HookInvoke (hook : FnPtr) (args : Args) (original : ImplFn)
| ImplInvoke (fn : ImplFn) (args : Args).

(** ** The monad *)

Record Run (A : Type) : Type := MkRun {
  value : A;
  world : World;
  log : list Event
}.
Arguments MkRun {A} _ _ _.
Arguments value {A} _.
Arguments world {A} _.
Arguments log {A} _.

Definition M (A : Type) : Type := World → Run A.

#[global] Instance M_ret : MRet M := λ A a w, MkRun a w [].
#[global] Instance M_bind : MBind M := λ A B f m w,
  let r := m w in
  let r' := f (value r) (world r) in
  MkRun (value r') (world r') (log r ++ log r').

(** Reading a global. *)
Definition load {A : Type} (cell : World → A) : M A := λ w, MkRun (cell w) w [].
(** An interaction with the outside. *)
Definition emit (e : Event) : M unit := λ w, MkRun () w [e].
(** Writing the globals. *)
Definition modify (f : World → World) : M unit := λ w, MkRun () (f w) [].

(** ** Code outside the file *)

(** [_swift_tsan_release] (TaskPrivate.h) and the functions of
    [concurrency::trace] are declared in headers that are not among the
    sources; a call to one of them is an interaction. *)
Definition _swift_tsan_release (job : JobPtr) : M unit :=
  emit (TsanRelease job).

Definition trace (e : TraceEvent) : M unit := emit (Trace e).

(** [fprintf(stderr, ...)], with the line already formatted. *)
Definition fprintf_stderr (line : string) : M unit := emit (Stderr line).

(** A call through a hook slot: control passes to whatever function the
    slot points to, with the entry point's arguments and [original]. *)
Definition call_hook (hook : FnPtr) (args : Args) (original : ImplFn)
    : M unit :=
  emit (HookInvoke hook args original).

(** The backend engines ([CooperativeGlobalExecutor.inc],
    [DispatchGlobalExecutor.inc], [NonDispatchGlobalExecutor.inc]) are not
    among the sources.  A call to one of a backend's enqueue functions is the
    hand-over of the job to that backend: an interaction that carries the
    arguments; what the backend then does with the job is its own. *)
Definition swift_task_enqueueGlobalImpl (job : JobPtr) : M unit :=
  emit (ImplInvoke EnqueueGlobalImpl (ArgsGlobal job)).

Definition swift_task_enqueueGlobalWithDelayImpl (delay : JobDelay)
    (job : JobPtr) : M unit :=
  emit (ImplInvoke EnqueueGlobalWithDelayImpl (ArgsGlobalWithDelay delay job)).

Definition swift_task_enqueueGlobalWithDeadlineImpl
    (sec nsec tsec tnsec : long_long) (clock : int) (job : JobPtr)
    : M unit :=
  emit (ImplInvoke EnqueueGlobalWithDeadlineImpl
          (ArgsGlobalWithDeadline sec nsec tsec tnsec clock job)).

Definition swift_task_enqueueMainExecutorImpl (job : JobPtr) : M unit :=
  emit (ImplInvoke EnqueueMainExecutorImpl (ArgsMainExecutor job)).

(** Modelled from the spec: [swift_concurrency_setMainActorExecutorImpl] is
    defined by the backend engines, which are not among the sources.  The
    spec's [setMainExecutorOverride] "atomically installs a new identity and
    capability pair" in the "identity cell and an implementation/capability
    cell": the executor goes to [mainExecutorIdentityOverride], the witness
    table to [mainExecutorImplementationOverride]. *)
Definition swift_concurrency_setMainActorExecutorImpl
    (executor : HeapObjectPtr) (selfType : MetadataPtr)
    (wtable : WitnessTablePtr) : M unit :=
  emit (ImplInvoke SetMainActorExecutorImpl
          (ArgsSetMainActorExecutor executor selfType wtable));;
  modify (λ w, {|
    swift_task_enqueueGlobal_hook := swift_task_enqueueGlobal_hook w;
    swift_task_enqueueGlobalWithDelay_hook :=
      swift_task_enqueueGlobalWithDelay_hook w;
    swift_task_enqueueGlobalWithDeadline_hook :=
      swift_task_enqueueGlobalWithDeadline_hook w;
    swift_task_enqueueMainExecutor_hook :=
      swift_task_enqueueMainExecutor_hook w;
    mainExecutorIdentityOverride := executor;
    mainExecutorImplementationOverride := wtable;
    jobs := jobs w
  |}).

(** ** GlobalExecutor.cpp, lines 112-153: the enqueue entry points *)

Definition swift_task_enqueueGlobal (job : JobPtr) : M unit :=
  _swift_tsan_release job;;
  trace (job_enqueue_global job);;
  hook ← load swift_task_enqueueGlobal_hook;
  if nonnull hook then call_hook hook (ArgsGlobal job) EnqueueGlobalImpl
  else swift_task_enqueueGlobalImpl job.

Definition swift_task_enqueueGlobalWithDelay (delay : JobDelay)
    (job : JobPtr) : M unit :=
  trace (job_enqueue_global_with_delay delay job);;
  hook ← load swift_task_enqueueGlobalWithDelay_hook;
  if nonnull hook then
    call_hook hook (ArgsGlobalWithDelay delay job) EnqueueGlobalWithDelayImpl
  else swift_task_enqueueGlobalWithDelayImpl delay job.

Definition swift_task_enqueueGlobalWithDeadline
    (sec nsec tsec tnsec : long_long) (clock : int) (job : JobPtr)
    : M unit :=
  hook ← load swift_task_enqueueGlobalWithDeadline_hook;
  if nonnull hook then
    call_hook hook (ArgsGlobalWithDeadline sec nsec tsec tnsec clock job)
      EnqueueGlobalWithDeadlineImpl
  else swift_task_enqueueGlobalWithDeadlineImpl sec nsec tsec tnsec clock job.

Definition swift_task_enqueueMainExecutor (job : JobPtr) : M unit :=
  trace (job_enqueue_main_executor job);;
  hook ← load swift_task_enqueueMainExecutor_hook;
  if nonnull hook then
    call_hook hook (ArgsMainExecutor job) EnqueueMainExecutorImpl
  else swift_task_enqueueMainExecutorImpl job.

(** ** GlobalExecutor.cpp, lines 159-185: the main executor *)

Definition __FILE_NAME__ : string := "GlobalExecutor.cpp".
Definition __LINE__ : string := "163".
Definition __FUNCTION__ : string := "swift_concurrency_setMainActorExecutor".

(** ["[%s:%d](%s) hello\n"] at [__FILE_NAME__], [__LINE__], [__FUNCTION__]. *)
Definition hello_line : string :=
  "[" +:+ __FILE_NAME__ +:+ ":" +:+ __LINE__ +:+ "](" +:+ __FUNCTION__
    +:+ ") hello" +:+ String (Ascii.ascii_of_N 10) EmptyString.

(** The hook slot of this entry point is commented out (lines 95-99) and
    the body consults none. *)
Definition swift_concurrency_setMainActorExecutor (executor : HeapObjectPtr)
    (selfType : MetadataPtr) (wtable : WitnessTablePtr) : M unit :=
  fprintf_stderr hello_line;;
  swift_concurrency_setMainActorExecutorImpl executor selfType wtable.

Definition swift_task_getMainExecutor (t : Target) : ExecutorRef :=
  if negb (SWIFT_CONCURRENCY_ENABLE_DISPATCH t) then generic
  else forOrdinary (_dispatch_main_q t)
         (_swift_task_getDispatchQueueSerialExecutorWitnessTable t).

Definition isMainExecutor (t : Target) (self : ExecutorRef) : bool :=
  if negb (SWIFT_CONCURRENCY_ENABLE_DISPATCH t) then isGeneric self
  else Identity self =? _dispatch_main_q t.

(** ** Reading a log *)

Definition is_call (e : Event) : bool :=
  match e with
  | HookInvoke _ _ _ | ImplInvoke _ _ => true
  | _ => false
  end.

(** The calls to a hook or to a backend, in order. *)
Definition calls (l : list Event) : list Event := filter is_call l.

(** The trace events, in order. *)
Definition traces (l : list Event) : list TraceEvent :=
  omap (λ e, match e with Trace t => Some t | _ => None end) l.

(** The lines written to [stderr], in order. *)
Definition stderr_lines (l : list Event) : list string :=
  omap (λ e, match e with Stderr s => Some s | _ => None end) l.

(** The arguments a call event carries. *)
Definition call_args (e : Event) : option Args :=
  match e with
  | HookInvoke _ args _ | ImplInvoke _ args => Some args
  | _ => None
  end.

(** The job among the arguments of an enqueue call. *)
Definition args_job (a : Args) : option JobPtr :=
  match a with
  | ArgsGlobal job | ArgsGlobalWithDelay _ job
  | ArgsGlobalWithDeadline _ _ _ _ _ job | ArgsMainExecutor job => Some job
  | ArgsSetMainActorExecutor _ _ _ => None
  end.

(** ** Statements about a run *)

(** The event with which an entry point ends: the call through the slot,
    or the call of the default implementation. *)
Definition dispatch_call (slot : FnPtr) (args : Args) (original : ImplFn)
    : Event :=
  if nonnull slot then HookInvoke slot args original
  else ImplInvoke original args.

Ltac run_entry f :=
  intros; unfold f, dispatch_call, mbind, M_bind, load; simpl;
  match goal with
  | |- context [nonnull ?h] => destruct (nonnull h); reflexivity
  end.

(** What a run of an entry point has logged is a routing through the hook
    slot [slot]: with a hook installed, one call, to that hook, with the
    arguments and the reference to the default implementation, and no call
    to the default implementation; with none, one call, to the default
    implementation, with the arguments. *)
Definition routed (r : Run unit) (slot : FnPtr) (args : Args)
    (original : ImplFn) : Prop :=
  (slot ≠ nullptr → calls (log r) = [HookInvoke slot args original]) ∧
  (slot = nullptr → calls (log r) = [ImplInvoke original args]).

(** The run has left the job records alone and made one call, with exactly
    the arguments [args]. *)
Definition forwarded (w : World) (r : Run unit) (args : Args) : Prop :=
  jobs (world r) = jobs w ∧ omap call_args (log r) = [args].

(** ** Sample inputs *)

Definition dispatch_target : Target := {|
  SWIFT_CONCURRENCY_COOPERATIVE_GLOBAL_EXECUTOR := false;
  SWIFT_CONCURRENCY_ENABLE_DISPATCH := true;
  _dispatch_main_q := 4096;
  _swift_task_getDispatchQueueSerialExecutorWitnessTable := 8192
|}.

Definition nondispatch_target : Target := {|
  SWIFT_CONCURRENCY_COOPERATIVE_GLOBAL_EXECUTOR := false;
  SWIFT_CONCURRENCY_ENABLE_DISPATCH := false;
  _dispatch_main_q := 4096;
  _swift_task_getDispatchQueueSerialExecutorWitnessTable := 8192
|}.

Definition cooperative_target : Target := {|
  SWIFT_CONCURRENCY_COOPERATIVE_GLOBAL_EXECUTOR := true;
  SWIFT_CONCURRENCY_ENABLE_DISPATCH := false;
  _dispatch_main_q := 4096;
  _swift_task_getDispatchQueueSerialExecutorWitnessTable := 8192
|}.

(** One job record, at address 64. *)
Definition sample_memory : gmap N Job :=
  {[ 64 := {| RunJob := 256; Priority := 21; AssociatedExecutor := None |} ]}.

(** A hook installed in every slot. *)
Definition hooked_world : World := {|
  swift_task_enqueueGlobal_hook := 1024;
  swift_task_enqueueGlobalWithDelay_hook := 1040;
  swift_task_enqueueGlobalWithDeadline_hook := 1056;
  swift_task_enqueueMainExecutor_hook := 1072;
  mainExecutorIdentityOverride := nullptr;
  mainExecutorImplementationOverride := 0;
  jobs := sample_memory
|}.

(** * DerivedConformances.cpp: derived conformance utilities

    The second file of the repository.  Its functions ask the AST questions
    and build AST nodes; the AST library itself ([swift/AST/...],
    [TypeChecker.h]) is not among the sources.  A type ([Type]) is a pointer,
    null when absent; what the file asks of the AST about a type or of a
    context is a field of [ASTContext]; what it asks of a declaration is a
    field of that declaration's record, holding the answer.  An AST node the
    file builds is the term of the constructor calls that build it, with the
    arguments the source passes; the empty locations ([SourceLoc()],
    [DeclNameLoc()]) are left out. *)
Module DerivedConformance.

Abbreviation Type_ := ptr (only parsing).
Abbreviation DeclContextPtr := ptr (only parsing).
Abbreviation Identifier := string (only parsing).

(** ** The protocol kinds the file names *)

Module KnownDerivableProtocolKind.
Inductive t : Type :=
| RawRepresentable | OptionSet | CaseIterable | Comparable | Equatable
| Hashable | BridgedNSError | CodingKey | Encodable | Decodable
| AdditiveArithmetic | Differentiable | PointwiseMultiplicative
| ElementaryFunctions | KeyPathIterable | TensorArrayProtocol | TensorGroup
| VectorProtocol | EuclideanDifferentiable.
#[global] Instance eq_dec : EqDecision t.
Proof. solve_decision. Defined.
End KnownDerivableProtocolKind.

(** [Other] stands for the known protocols this file does not name. *)
Module KnownProtocolKind.
Inductive t : Type :=
| RawRepresentable | CaseIterable | Comparable | Equatable | Hashable
| BridgedNSError | CodingKey | Encodable | Decodable | AdditiveArithmetic
| Differentiable | PointwiseMultiplicative | ElementaryFunctions
| KeyPathIterable | TensorArrayProtocol | TensorGroup | VectorProtocol
| EuclideanDifferentiable
| Other (id : N).
#[global] Instance eq_dec : EqDecision t.
Proof. solve_decision. Defined.
End KnownProtocolKind.

(** ** Declarations, as the file queries them *)

Record ParamDecl : Type := {
  param_getName : Identifier;
  param_getInterfaceType : Type_
}.

Record EnumElementDecl : Type := {
  elt_getName : Identifier;
  (** [getParameterList()], null for a case without payload. *)
  getParameterList : option (list ParamDecl);
  hasAssociatedValues : bool;
  getArgumentInterfaceType : Type_
}.

Record EnumDecl : Type := {
  hasPotentiallyUnavailableCaseValue : bool;
  hasOnlyCasesWithoutAssociatedValues : bool;
  isObjC : bool;
  hasCases : bool;
  (** [getRawType()], a null type when the enum has none. *)
  getRawType : Type_;
  getAllElements : list EnumElementDecl
}.

Record ClassDecl : Type := {
  class_isFinal : bool
}.

(** The classes of [NominalTypeDecl] that [dyn_cast] and [isa] tell apart. *)
Inductive NominalKind : Type :=
| IsEnumDecl (enumDecl : EnumDecl)
| IsStructDecl
| IsClassDecl (CD : ClassDecl)
| IsProtocolDecl.

Record NominalTypeDecl : Type := {
  nominalKind : NominalKind;
  nominal_getModuleScopeContext : DeclContextPtr
}.

Definition dyn_cast_EnumDecl (Nominal : NominalTypeDecl) : option EnumDecl :=
  match nominalKind Nominal with
  | IsEnumDecl enumDecl => Some enumDecl
  | _ => None
  end.

Definition dyn_cast_ClassDecl (Nominal : NominalTypeDecl)
    : option ClassDecl :=
  match nominalKind Nominal with
  | IsClassDecl CD => Some CD
  | _ => None
  end.

Definition isa_StructDecl (Nominal : NominalTypeDecl) : bool :=
  match nominalKind Nominal with IsStructDecl => true | _ => false end.

Definition isa_ClassDecl (Nominal : NominalTypeDecl) : bool :=
  match nominalKind Nominal with IsClassDecl _ => true | _ => false end.

Record ProtocolDecl : Type := {
  getKnownProtocolKind : option KnownProtocolKind.t;
  getKnownDerivableProtocolKind : option KnownDerivableProtocolKind.t;
  getDeclaredType : Type_
}.

(** [ProtocolDecl::isSpecificProtocol]. *)
Definition isSpecificProtocol (Protocol : ProtocolDecl)
    (kind : KnownProtocolKind.t) : bool :=
  bool_decide (getKnownProtocolKind Protocol = Some kind).

(** What the file asks of the AST context and of types. *)
Record ASTContext : Type := {
  getStringDecl : ptr;
  getIntDecl : ptr;
  getIntBuiltinInitDecl : ptr → ptr;
  (** [Decl->getDeclaredType()] of a nominal of the standard library. *)
  nominal_getDeclaredType : ptr → Type_;
  getAnyNominal : Type_ → ptr;
  (** [getAs<TupleType>()] with the elements' names and types; [None] for a
      null result. *)
  getAs_TupleType : Type_ → option (list (Identifier * Type_));
  getWithoutParens : Type_ → Type_;
  LValueType_get : Type_ → Type_;
  TupleType_getEmpty : Type_
}.

(** The derivation checks of the sibling files ([canDeriveHashable] and the
    like), which are not among the sources, and the type checker's
    conformance query, each with the arguments the file gives it. *)
Record Sema : Type := {
  canDeriveHashable : NominalTypeDecl → bool;
  canDeriveAdditiveArithmetic : NominalTypeDecl → DeclContextPtr → bool;
  canDeriveDifferentiable : NominalTypeDecl → DeclContextPtr → bool;
  canDerivePointwiseMultiplicative : NominalTypeDecl → DeclContextPtr → bool;
  canDeriveElementaryFunctions : NominalTypeDecl → DeclContextPtr → bool;
  canDeriveKeyPathIterable : NominalTypeDecl → bool;
  canDeriveTensorArrayProtocol : NominalTypeDecl → DeclContextPtr → bool;
  canDeriveTensorGroup : NominalTypeDecl → DeclContextPtr → bool;
  canDeriveVectorProtocol : NominalTypeDecl → DeclContextPtr → bool;
  canDeriveEuclideanDifferentiable : NominalTypeDecl → DeclContextPtr → bool;
  canDeriveRawRepresentable : DeclContextPtr → NominalTypeDecl → bool;
  canDeriveEquatable : DeclContextPtr → NominalTypeDecl → bool;
  canDeriveComparable : DeclContextPtr → EnumDecl → bool;
  mapTypeIntoContext : DeclContextPtr → Type_ → Type_;
  (** [TypeChecker::conformsToProtocol(T, protocol, DC).isInvalid()]. *)
  conformsToProtocol_isInvalid :
    Type_ → ProtocolDecl → DeclContextPtr → bool
}.

(** ** Lines 54-180: [derivesProtocolConformance] *)

Definition derivesProtocolConformance (S : Sema) (C : ASTContext)
    (DC : DeclContextPtr) (Nominal : NominalTypeDecl)
    (Protocol : ProtocolDecl) : bool :=
  match getKnownDerivableProtocolKind Protocol with
  | None => false
  | Some derivableKind =>
    let kindIs k := bool_decide (derivableKind = k) in
    if kindIs KnownDerivableProtocolKind.OptionSet then false
    else if kindIs KnownDerivableProtocolKind.Hashable then
      canDeriveHashable S Nominal
    else if kindIs KnownDerivableProtocolKind.AdditiveArithmetic then
      canDeriveAdditiveArithmetic S Nominal DC
    else if kindIs KnownDerivableProtocolKind.Differentiable then
      canDeriveDifferentiable S Nominal DC
    else if kindIs KnownDerivableProtocolKind.PointwiseMultiplicative then
      canDerivePointwiseMultiplicative S Nominal DC
    else if kindIs KnownDerivableProtocolKind.ElementaryFunctions then
      canDeriveElementaryFunctions S Nominal DC
    else if kindIs KnownDerivableProtocolKind.KeyPathIterable then
      canDeriveKeyPathIterable S Nominal
    else if kindIs KnownDerivableProtocolKind.TensorArrayProtocol then
      canDeriveTensorArrayProtocol S Nominal DC
    else if kindIs KnownDerivableProtocolKind.TensorGroup then
      canDeriveTensorGroup S Nominal DC
    else if kindIs KnownDerivableProtocolKind.VectorProtocol then
      canDeriveVectorProtocol S Nominal DC
    else if kindIs KnownDerivableProtocolKind.EuclideanDifferentiable then
      canDeriveEuclideanDifferentiable S Nominal DC
    else
      match dyn_cast_EnumDecl Nominal with
      | Some enumDecl =>
        match derivableKind with
        | KnownDerivableProtocolKind.RawRepresentable =>
            canDeriveRawRepresentable S DC Nominal
        | KnownDerivableProtocolKind.Equatable =>
            canDeriveEquatable S DC Nominal
        | KnownDerivableProtocolKind.Comparable =>
            negb (hasPotentiallyUnavailableCaseValue enumDecl)
            && canDeriveComparable S DC enumDecl
        | KnownDerivableProtocolKind.CaseIterable =>
            negb (hasPotentiallyUnavailableCaseValue enumDecl)
            && hasOnlyCasesWithoutAssociatedValues enumDecl
        | KnownDerivableProtocolKind.BridgedNSError =>
            isObjC enumDecl && hasCases enumDecl
            && hasOnlyCasesWithoutAssociatedValues enumDecl
        | KnownDerivableProtocolKind.CodingKey =>
            let rawType := getRawType enumDecl in
            if nonnull rawType then
              let nominal := getAnyNominal C rawType in
              (nominal =? getStringDecl C) || (nominal =? getIntDecl C)
            else hasOnlyCasesWithoutAssociatedValues enumDecl
        | _ => false
        end
      | None =>
        if isa_StructDecl Nominal || isa_ClassDecl Nominal then
          if kindIs KnownDerivableProtocolKind.Encodable
             || kindIs KnownDerivableProtocolKind.Decodable then true
          else if isa_StructDecl Nominal then
            match derivableKind with
            | KnownDerivableProtocolKind.Equatable =>
                canDeriveEquatable S DC Nominal
            | _ => false
            end
          else false
        else false
      end
  end.

(** ** The [DerivedConformance] object *)

(** [ConformanceDecl] is the nominal declaration itself or an extension of
    it. *)
Record Decl : Type := {
  isa_ExtensionDecl : bool;
  decl_getModuleScopeContext : DeclContextPtr
}.

Record t : Type := {
  ConformanceDecl : Decl;
  Nominal : NominalTypeDecl;
  Protocol : ProtocolDecl
}.

Definition getProtocolType (self : t) : Type_ :=
  getDeclaredType (Protocol self).

(** ** Value declarations and their names *)

Inductive ValueDeclKind : Type :=
| IsVarDecl | IsFuncDecl | IsConstructorDecl | IsAssociatedTypeDecl
| IsOtherValueDecl.

(** A [DeclName]: a base name alone (simple), or a base name with argument
    names (compound). *)
Record DeclName : Type := {
  getBaseName : Identifier;
  isCompoundName : bool;
  getArgumentNames : list Identifier
}.

Definition isSimpleName (name : DeclName) (id : Identifier) : bool :=
  negb (isCompoundName name) && bool_decide (getBaseName name = id).

Record ValueDecl : Type := {
  valueDeclKind : ValueDeclKind;
  getName : DeclName;
  isStatic : bool;
  (** [FuncDecl::isOperator()]. *)
  isOperator : bool;
  (** [ConstructorDecl::isFailable()] and
      [isImplicitlyUnwrappedOptional()]. *)
  isFailable : bool;
  isImplicitlyUnwrappedOptional : bool;
  (** [getParameters()->get(1)->getName()] of a function. *)
  secondParameterName : Identifier
}.

Definition isa_ConstructorDecl (d : ValueDecl) : bool :=
  match valueDeclKind d with IsConstructorDecl => true | _ => false end.

(** ** Lines 625-659: [checkAndDiagnoseDisallowedContext] *)

Inductive DescriptiveDeclKind : Type := DescriptiveDeclKind_Type.

(** A diagnostic, with the declaration it is attached to. *)
Inductive Diagnostic : Type :=
| cannot_synthesize_in_crossfile_extension (at_ : Decl)
    (protocolType : Type_)
| kind_declared_here (at_ : NominalTypeDecl) (kind : DescriptiveDeclKind)
| cannot_synthesize_init_in_extension_of_nonfinal (at_ : Decl)
    (protocolType : Type_) (name : DeclName).

(** The result, and the diagnostics emitted, in order. *)
Definition checkAndDiagnoseDisallowedContext (self : t)
    (synthesizing : ValueDecl) : bool * list Diagnostic :=
  let allowCrossfileExtensions :=
    if isSpecificProtocol (Protocol self) KnownProtocolKind.Equatable
       || isSpecificProtocol (Protocol self) KnownProtocolKind.Hashable
    then
      match dyn_cast_EnumDecl (Nominal self) with
      | Some ED => hasOnlyCasesWithoutAssociatedValues ED
      | None => false
      end
    else false in
  if negb allowCrossfileExtensions
     && negb (nominal_getModuleScopeContext (Nominal self)
              =? decl_getModuleScopeContext (ConformanceDecl self))
  then
    (true,
     [cannot_synthesize_in_crossfile_extension (ConformanceDecl self)
        (getProtocolType self);
      kind_declared_here (Nominal self) DescriptiveDeclKind_Type])
  else
    match dyn_cast_ClassDecl (Nominal self) with
    | Some CD =>
      if negb (class_isFinal CD)
         && isa_ConstructorDecl synthesizing
         && isa_ExtensionDecl (ConformanceDecl self)
      then
        (true,
         [cannot_synthesize_init_in_extension_of_nonfinal
            (ConformanceDecl self) (getProtocolType self)
            (getName synthesizing)])
      else (false, [])
    | None => (false, [])
    end.

(** ** Lines 826-855: associated values that do not conform *)

(** The two loops, with [push_back] on the result. *)
Definition associatedValuesNotConformingToProtocol (S : Sema)
    (DC : DeclContextPtr) (theEnum : EnumDecl) (protocol : ProtocolDecl)
    : list ParamDecl :=
  foldl
    (λ nonconformingAssociatedValues elt,
       match getParameterList elt with
       | None => nonconformingAssociatedValues
       | Some PL =>
         foldl
           (λ nonconformingAssociatedValues param,
              let type := param_getInterfaceType param in
              if conformsToProtocol_isInvalid S
                   (mapTypeIntoContext S DC type) protocol DC
              then nonconformingAssociatedValues ++ [param]
              else nonconformingAssociatedValues)
           nonconformingAssociatedValues PL
       end)
    [] (getAllElements theEnum).

Definition allAssociatedValuesConformToProtocol (S : Sema)
    (DC : DeclContextPtr) (theEnum : EnumDecl) (protocol : ProtocolDecl)
    : bool :=
  match associatedValuesNotConformingToProtocol S DC theEnum protocol with
  | [] => true
  | _ :: _ => false
  end.

(** ** AST nodes the file builds *)

Inductive Introducer : Type := Let | Var.

(** A [VarDecl] made by [new (C) VarDecl(IsStatic, Introducer,
    IsCaptureList, SourceLoc(), Name, DC)], with what the setters called on
    it afterwards have stored. *)
Record VarDecl : Type := {
  var_IsStatic : bool;
  var_Introducer : Introducer;
  var_IsCaptureList : bool;
  var_Name : Identifier;
  var_DC : DeclContextPtr;
  (** [setInterfaceType]. *)
  var_InterfaceType : Type_;
  (** Whether [setImplicit()] was called. *)
  var_setImplicit : bool;
  (** Whether [setHasNonPatternBindingInit(true)] was called. *)
  var_setHasNonPatternBindingInit : bool
}.

(** A pattern, as the calls that make it. *)
Inductive Pattern : Type :=
| NamedPattern_new (Var : VarDecl)
| NamedPattern_createImplicit (Var : VarDecl)
| VarPattern_new (isLet : bool) (sub : Pattern)
| VarPattern_createImplicit (isLet : bool) (sub : Pattern)
| TuplePattern_createImplicit (elementPatterns : list (Identifier * Pattern))
| ParenPattern_createImplicit (sub : Pattern)
| TypedPattern_createImplicit (sub : Pattern) (type : Type_)
| EnumElementPattern_new (parentType : Type_) (elt : EnumElementDecl)
    (sub : option Pattern)
| Pattern_setImplicit (pat : Pattern)
| Pattern_setType (pat : Pattern) (type : Type_).

Inductive AccessSemantics : Type := Ordinary.

(** An expression, as the calls that make it. *)
Inductive Expr : Type :=
| IntegerLiteralExpr_createFromUnsigned (value : N)
| DeclRefExpr_new (D : VarDecl) (Implicit : bool)
    (semantics : option (AccessSemantics * Type_))
| AssignExpr_new (Dest Src : Expr) (Implicit : bool)
| Expr_setType (e : Expr) (type : Type_)
| Expr_setBuiltinInitializer (e : Expr) (init : ptr).

Inductive StaticSpellingKind : Type := StaticSpellingKind_None.
Inductive CaseParentKind : Type := CaseParentKind_Switch.

(** Statements and the other nodes that go into a statement list. *)
Inductive ASTNode : Type :=
| ASTNode_Expr (e : Expr)
| PatternBindingDecl_createImplicit (StaticSpelling : StaticSpellingKind)
    (Pat : Pattern) (InitExpr : option Expr) (Parent : DeclContextPtr)
| BraceStmt_create (elements : list ASTNode)
| CaseStmt_create (ParentKind : CaseParentKind) (labelItem : Pattern)
    (body : ASTNode)
| SwitchStmt_create (SubjectExpr : Expr) (Cases : list ASTNode).

(** ** Lines 922-939: [indexedVarDecl] *)

(** [APInt(32, index)]: the [int] converted to [uint64_t] and cut to 32
    bits.  [toString(_, 10, false)] prints it in decimal, unsigned. *)
Definition APInt32 (val : Z) : N := Z.to_N (val `mod` 2 ^ 32).
Definition APInt_toString10 (n : N) : string := pretty n.

Definition indexedVarDecl (prefixChar : ascii) (index : Z) (type : Type_)
    (varContext : DeclContextPtr) : VarDecl :=
  let indexVal := String prefixChar EmptyString in
  let indexVal := indexVal +:+ APInt_toString10 (APInt32 index) in
  {| var_IsStatic := false;
     var_Introducer := Let;
     var_IsCaptureList := true;
     var_Name := indexVal;
     var_DC := varContext;
     var_InterfaceType := type;
     var_setImplicit := false;
     var_setHasNonPatternBindingInit := true |}.

(** ** Lines 863-913: [enumElementPayloadSubpattern] *)

(** The returned pattern (null when the case has no payload) and
    [boundVars] after the call. *)
Definition enumElementPayloadSubpattern (C : ASTContext)
    (enumElementDecl : EnumElementDecl) (varPrefix : ascii)
    (varContext : DeclContextPtr) (boundVars : list VarDecl)
    : option Pattern * list VarDecl :=
  if negb (hasAssociatedValues enumElementDecl) then (None, boundVars)
  else
    let argumentType := getArgumentInterfaceType enumElementDecl in
    match getAs_TupleType C argumentType with
    | Some tupleElements =>
      let '(_, boundVars, elementPatterns) :=
        foldl
          (λ '(index, boundVars, elementPatterns) tupleElement,
             let payloadVar :=
               indexedVarDecl varPrefix index tupleElement.2 varContext in
             let namedPattern :=
               Pattern_setImplicit (NamedPattern_new payloadVar) in
             let letPattern := VarPattern_createImplicit true namedPattern in
             ((index + 1)%Z, boundVars ++ [payloadVar],
              elementPatterns ++ [(tupleElement.1, letPattern)]))
          (0%Z, boundVars, []) tupleElements in
      let pat := TuplePattern_createImplicit elementPatterns in
      (Some (Pattern_setImplicit pat), boundVars)
    | None =>
      let underlyingType := getWithoutParens C argumentType in
      let payloadVar := indexedVarDecl varPrefix 0 underlyingType varContext in
      let namedPattern := Pattern_setImplicit (NamedPattern_new payloadVar) in
      let letPattern := VarPattern_new true namedPattern in
      (Some (ParenPattern_createImplicit letPattern),
       boundVars ++ [payloadVar])
    end.

(** ** Lines 733-741: [buildIntegerLiteral] *)

Definition buildIntegerLiteral (C : ASTContext) (index : N) : Expr :=
  let intType := nominal_getDeclaredType C (getIntDecl C) in
  let literal := IntegerLiteralExpr_createFromUnsigned index in
  let literal := Expr_setType literal intType in
  Expr_setBuiltinInitializer literal
    (getIntBuiltinInitDecl C (getIntDecl C)).

(** ** Lines 751-818: [convertEnumToIndex] *)

(** [index++] on an [unsigned]. *)
Definition unsigned_succ (index : N) : N := (index + 1) `mod` 2 ^ 32.

(** The returned reference and [stmts] after the call.  [enumType] is
    [enumVarDecl->getType()]. *)
Definition convertEnumToIndex (C : ASTContext) (stmts : list ASTNode)
    (parentDC : DeclContextPtr) (enumDecl : EnumDecl)
    (enumVarDecl : VarDecl) (enumType : Type_) (funcDecl : DeclContextPtr)
    (indexName : string) : Expr * list ASTNode :=
  let intType := nominal_getDeclaredType C (getIntDecl C) in
  let indexVar :=
    {| var_IsStatic := false;
       var_Introducer := Var;
       var_IsCaptureList := false;
       var_Name := indexName;
       var_DC := funcDecl;
       var_InterfaceType := intType;
       var_setImplicit := true;
       var_setHasNonPatternBindingInit := false |} in
  let indexPat :=
    Pattern_setType (NamedPattern_createImplicit indexVar) intType in
  let indexPat :=
    Pattern_setType (TypedPattern_createImplicit indexPat intType) intType in
  let indexBind :=
    PatternBindingDecl_createImplicit StaticSpellingKind_None indexPat None
      funcDecl in
  let '(_, cases) :=
    foldl
      (λ '(index, cases) elt,
         let pat :=
           Pattern_setType
             (Pattern_setImplicit (EnumElementPattern_new enumType elt None))
             enumType in
         let labelItem := pat in
         let indexExpr := buildIntegerLiteral C index in
         let indexRef :=
           DeclRefExpr_new indexVar true
             (Some (Ordinary, LValueType_get C intType)) in
         let assignExpr :=
           Expr_setType (AssignExpr_new indexRef indexExpr true)
             (TupleType_getEmpty C) in
         let body := BraceStmt_create [ASTNode_Expr assignExpr] in
         (unsigned_succ index,
          cases ++ [CaseStmt_create CaseParentKind_Switch labelItem body]))
      (0, []) (getAllElements enumDecl) in
  let enumRef := DeclRefExpr_new enumVarDecl true (Some (Ordinary, enumType)) in
  let switchStmt := SwitchStmt_create enumRef cases in
  (DeclRefExpr_new indexVar true (Some (Ordinary, intType)),
   stmts ++ [indexBind; switchStmt]).

(** ** Reading the nodes *)

(** The variables a pattern binds, left to right. *)
Fixpoint patternVars (p : Pattern) : list VarDecl :=
  match p with
  | NamedPattern_new v | NamedPattern_createImplicit v => [v]
  | VarPattern_new _ sub | VarPattern_createImplicit _ sub
  | ParenPattern_createImplicit sub | TypedPattern_createImplicit sub _
  | Pattern_setImplicit sub | Pattern_setType sub _ => patternVars sub
  | TuplePattern_createImplicit elts =>
      concat (map (λ elt, patternVars elt.2) elts)
  | EnumElementPattern_new _ _ sub =>
      match sub with Some sub => patternVars sub | None => [] end
  end.

(** The labels of a tuple pattern. *)
Fixpoint patternLabels (p : Pattern) : list Identifier :=
  match p with
  | TuplePattern_createImplicit elts => map fst elts
  | Pattern_setImplicit sub | Pattern_setType sub _ => patternLabels sub
  | _ => []
  end.

(** The enum element a case label matches. *)
Fixpoint patternElement (p : Pattern) : option EnumElementDecl :=
  match p with
  | EnumElementPattern_new _ elt _ => Some elt
  | Pattern_setImplicit sub | Pattern_setType sub _ => patternElement sub
  | _ => None
  end.

(** The value of an integer literal. *)
Fixpoint literalValue (e : Expr) : option N :=
  match e with
  | IntegerLiteralExpr_createFromUnsigned value => Some value
  | Expr_setType e _ | Expr_setBuiltinInitializer e _ => literalValue e
  | _ => None
  end.

(** The variable an expression refers to. *)
Definition referredVar (e : Expr) : option VarDecl :=
  match e with DeclRefExpr_new D _ _ => Some D | _ => None end.

(** What an assignment of a literal to a variable assigns: the variable
    and the value. *)
Fixpoint assignment (e : Expr) : option (VarDecl * N) :=
  match e with
  | AssignExpr_new Dest Src _ =>
      D ← referredVar Dest; value ← literalValue Src; Some (D, value)
  | Expr_setType e _ => assignment e
  | _ => None
  end.

(** A case of the switch, read as: the element matched, the variable
    assigned and the value assigned. *)
Definition caseEntry (n : ASTNode)
    : option (EnumElementDecl * VarDecl * N) :=
  match n with
  | CaseStmt_create _ labelItem (BraceStmt_create [ASTNode_Expr e]) =>
      elt ← patternElement labelItem;
      '(D, value) ← assignment e;
      Some (elt, D, value)
  | _ => None
  end.

(** The cases of a switch statement. *)
Definition switchCases (n : ASTNode) : list ASTNode :=
  match n with SwitchStmt_create _ Cases => Cases | _ => [] end.

(** ** Lines 200-494: [getDerivableRequirement] *)

(** The identifiers of [ASTContext] the function compares with
    ([ctx.Id_rawValue] and the like; their spelling is in
    [KnownIdentifiers.def], which is not among the sources), and the names
    [DerivedConformanceElementaryFunctions.def] lists for
    [ELEMENTARY_FUNCTION_UNARY]. *)
Record KnownIdentifiers : Type := {
  Id_rawValue : Identifier;
  Id_hashValue : Identifier;
  Id_allCases : Identifier;
  Id_nsErrorDomain : Identifier;
  Id_stringValue : Identifier;
  Id_intValue : Identifier;
  Id_zero : Identifier;
  Id_differentiableVectorView : Identifier;
  Id_one : Identifier;
  Id_reciprocal : Identifier;
  Id_allKeyPaths : Identifier;
  Id_tensorHandleCount : Identifier;
  Id_typeList : Identifier;
  Id_move : Identifier;
  Id_along : Identifier;
  Id_encode : Identifier;
  Id_to : Identifier;
  Id_hash : Identifier;
  Id_into : Identifier;
  Id_scaled : Identifier;
  Id_adding : Identifier;
  Id_subtracting : Identifier;
  Id_unpackTensorHandles : Identifier;
  Id_from : Identifier;
  Id_RawValue : Identifier;
  Id_AllCases : Identifier;
  Id_TangentVector : Identifier;
  Id_AllKeyPaths : Identifier;
  Id_VectorSpaceScalar : Identifier;
  ELEMENTARY_FUNCTION_UNARY : list string
}.

(** [ctx.getIdentifier("...")]. *)
Definition getIdentifier (s : string) : Identifier := s.

(** Equality of two names. *)
Definition eqName (a b : string) : bool := bool_decide (a = b).

(** [argumentNames[i]]; the function reads an element only after it has
    checked the size. *)
Definition argumentName (names : list Identifier) (i : nat) : Identifier :=
  default EmptyString (names !! i).

(** The body of [getDerivableRequirement], with the local function
    [getRequirement] it ends every successful path with, and [null] for
    [nullptr].  The optional second argument of [getRequirement] is the
    filter; the one filter the body passes compares the name of the second
    parameter with that of the requirement's. *)
Definition getDerivableRequirement_body {R : Type} (ctx : KnownIdentifiers)
    (getRequirement :
       KnownProtocolKind.t → option (ValueDecl → bool) → R)
    (null : R) (requirement : ValueDecl) : R :=
  let name := getName requirement in
  let base := getBaseName name in
  let argumentNames := getArgumentNames name in
  let size := length argumentNames in
  match valueDeclKind requirement with
  | IsVarDecl =>
    if isSimpleName name (Id_rawValue ctx) then
      getRequirement KnownProtocolKind.RawRepresentable None
    else if isSimpleName name (Id_hashValue ctx) then
      getRequirement KnownProtocolKind.Hashable None
    else if isSimpleName name (Id_allCases ctx) then
      getRequirement KnownProtocolKind.CaseIterable None
    else if isSimpleName name (Id_nsErrorDomain ctx) then
      getRequirement KnownProtocolKind.BridgedNSError None
    else if isSimpleName name (Id_stringValue ctx) then
      getRequirement KnownProtocolKind.CodingKey None
    else if isSimpleName name (Id_intValue ctx) then
      getRequirement KnownProtocolKind.CodingKey None
    else if isSimpleName name (Id_zero ctx) then
      getRequirement KnownProtocolKind.AdditiveArithmetic None
    else if isSimpleName name (Id_differentiableVectorView ctx) then
      getRequirement KnownProtocolKind.EuclideanDifferentiable None
    else if isSimpleName name (Id_one ctx) then
      getRequirement KnownProtocolKind.PointwiseMultiplicative None
    else if isSimpleName name (Id_reciprocal ctx) then
      getRequirement KnownProtocolKind.PointwiseMultiplicative None
    else if isSimpleName name (Id_allKeyPaths ctx) then
      getRequirement KnownProtocolKind.KeyPathIterable None
    else if isSimpleName name (Id_tensorHandleCount ctx) then
      getRequirement KnownProtocolKind.TensorArrayProtocol None
    else if isSimpleName name (Id_typeList ctx)
            && negb (isStatic requirement) then
      getRequirement KnownProtocolKind.TensorArrayProtocol None
    else if isSimpleName name (Id_typeList ctx) then
      getRequirement KnownProtocolKind.TensorGroup None
    else null
  | IsFuncDecl =>
    let func := requirement in
    if isOperator func && eqName base "<" then
      getRequirement KnownProtocolKind.Comparable None
    else if isOperator func && eqName base "==" then
      getRequirement KnownProtocolKind.Equatable None
    else if isOperator func && bool_decide (size = 2%nat)
            && (eqName base "+" || eqName base "-") then
      getRequirement KnownProtocolKind.AdditiveArithmetic None
    else if isCompoundName name && eqName base (Id_move ctx)
            && (bool_decide (size = 1%nat)
                && eqName (argumentName argumentNames 0) (Id_along ctx)) then
      getRequirement KnownProtocolKind.Differentiable None
    else if isCompoundName name && eqName base (Id_encode ctx)
            && (bool_decide (size = 1%nat)
                && eqName (argumentName argumentNames 0) (Id_to ctx)) then
      getRequirement KnownProtocolKind.Encodable None
    else if isCompoundName name && eqName base (Id_hash ctx)
            && (bool_decide (size = 1%nat)
                && eqName (argumentName argumentNames 0) (Id_into ctx)) then
      getRequirement KnownProtocolKind.Hashable None
    else if isOperator func && (eqName base "+" || eqName base "-")
            && bool_decide (size = 2%nat) then
      getRequirement KnownProtocolKind.AdditiveArithmetic None
    else if isOperator func && eqName base ".*"
            && bool_decide (size = 2%nat) then
      getRequirement KnownProtocolKind.PointwiseMultiplicative None
    else if isCompoundName name && bool_decide (size = 1%nat)
            && existsb (eqName base) (ELEMENTARY_FUNCTION_UNARY ctx) then
      getRequirement KnownProtocolKind.ElementaryFunctions None
    else if isCompoundName name && bool_decide (size = 2%nat)
            && eqName base "root" then
      getRequirement KnownProtocolKind.ElementaryFunctions None
    else if isCompoundName name && bool_decide (size = 2%nat)
            && eqName base "pow" then
      getRequirement KnownProtocolKind.ElementaryFunctions
        (Some (λ v,
           match valueDeclKind v with
           | IsFuncDecl =>
               eqName (secondParameterName v) (secondParameterName func)
           | _ => false
           end))
    else if isCompoundName name && eqName base (Id_scaled ctx)
            && (bool_decide (size = 1%nat)
                && eqName (argumentName argumentNames 0)
                     (getIdentifier "by")) then
      getRequirement KnownProtocolKind.VectorProtocol None
    else if isCompoundName name
            && (eqName base (Id_adding ctx)
                || eqName base (Id_subtracting ctx))
            && (bool_decide (size = 1%nat)
                && eqName (argumentName argumentNames 0) EmptyString) then
      getRequirement KnownProtocolKind.VectorProtocol None
    else if isCompoundName name && eqName base (Id_unpackTensorHandles ctx)
            && (bool_decide (size = 1%nat)
                && eqName (argumentName argumentNames 0)
                     (getIdentifier "into")) then
      getRequirement KnownProtocolKind.TensorArrayProtocol None
    else if isCompoundName name && eqName base (Id_move ctx)
            && (bool_decide (size = 1%nat)
                && eqName (argumentName argumentNames 0)
                     (getIdentifier "along")) then
      getRequirement KnownProtocolKind.Differentiable None
    else null
  | IsConstructorDecl =>
    let ctor := requirement in
    if bool_decide (size = 1%nat) then
      if eqName (argumentName argumentNames 0) (Id_rawValue ctx) then
        getRequirement KnownProtocolKind.RawRepresentable None
      else if isFailable ctor && negb (isImplicitlyUnwrappedOptional ctor)
              && (eqName (argumentName argumentNames 0) (Id_stringValue ctx)
                  || eqName (argumentName argumentNames 0) (Id_intValue ctx))
      then getRequirement KnownProtocolKind.CodingKey None
      else if eqName (argumentName argumentNames 0) (Id_from ctx) then
        getRequirement KnownProtocolKind.Decodable None
      else if eqName (argumentName argumentNames 0)
                (getIdentifier "_owning") then
        getRequirement KnownProtocolKind.TensorGroup None
      else null
    else if bool_decide (size = 2%nat) then
      if eqName (argumentName argumentNames 0) (getIdentifier "_owning")
         && eqName (argumentName argumentNames 1) (getIdentifier "count")
      then getRequirement KnownProtocolKind.TensorArrayProtocol None
      else null
    else null
  | IsAssociatedTypeDecl =>
    if isSimpleName name (Id_RawValue ctx) then
      getRequirement KnownProtocolKind.RawRepresentable None
    else if isSimpleName name (Id_AllCases ctx) then
      getRequirement KnownProtocolKind.CaseIterable None
    else if isSimpleName name (Id_TangentVector ctx) then
      getRequirement KnownProtocolKind.Differentiable None
    else if isSimpleName name (Id_AllKeyPaths ctx) then
      getRequirement KnownProtocolKind.KeyPathIterable None
    else if isSimpleName name (Id_VectorSpaceScalar ctx) then
      getRequirement KnownProtocolKind.VectorProtocol None
    else null
  | IsOtherValueDecl => null
  end.

(** What the local function asks of the module and of the protocol. *)
Record Lookup : Type := {
  (** [ctx.getProtocol(kind)], null when the protocol is not there. *)
  getProtocol : KnownProtocolKind.t → option ProtocolDecl;
  (** [lookupConformance] of the nominal's declared interface type; for a
      conformance found, the declaration context of the concrete
      conformance. *)
  lookupConformance : NominalTypeDecl → ProtocolDecl → option DeclContextPtr;
  lookupDirect : ProtocolDecl → DeclName → list ValueDecl;
  getSingleRequirement : ProtocolDecl → DeclName → option ValueDecl;
  (** [isa<ProtocolDecl>(v->getDeclContext())] and
      [v->isProtocolRequirement()]. *)
  inProtocolDecl : ValueDecl → bool;
  isProtocolRequirement : ValueDecl → bool
}.

(** The local function [getRequirement] (lines 210-239). *)
Definition getRequirement (S : Sema) (C : ASTContext) (L : Lookup)
    (nominal : NominalTypeDecl) (name : DeclName)
    (kind : KnownProtocolKind.t) (filter : option (ValueDecl → bool))
    : option ValueDecl :=
  match getProtocol L kind with
  | None => None
  | Some proto =>
    let refused :=
      match lookupConformance L nominal proto with
      | Some DC => negb (derivesProtocolConformance S C DC nominal proto)
      | None => false
      end in
    if refused then None
    else
      match filter with
      | Some filter =>
        let results := lookupDirect L proto name in
        let results :=
          List.filter
            (λ v, negb (negb (inProtocolDecl L v)
                        || negb (isProtocolRequirement L v)
                        || negb (filter v)))
            results in
        head results
      | None => getSingleRequirement L proto name
      end
  end.

Definition getDerivableRequirement (S : Sema) (C : ASTContext)
    (ctx : KnownIdentifiers) (L : Lookup) (nominal : NominalTypeDecl)
    (requirement : ValueDecl) : option ValueDecl :=
  getDerivableRequirement_body ctx
    (getRequirement S C L nominal (getName requirement)) None requirement.

(** ** Lines 39-48: [addMembersToConformanceContext] *)

(** The members added to the conformance context by [IDC->addMember], in
    order, and [SF->SynthesizedDecls] after the call; [SF] is the parent
    source file, null when there is none. *)
Definition addMembersToConformanceContext (SF : option (list ptr))
    (children : list ptr) : list ptr * option (list ptr) :=
  foldl
    (λ '(added, SF) child,
       (added ++ [child],
        match SF with
        | Some SynthesizedDecls => Some (SynthesizedDecls ++ [child])
        | None => None
        end))
    ([], SF) children.

End DerivedConformance.

(** ** Statements about the derived-conformance utilities *)

Module DerivedConformanceSpec.
Import DerivedConformance.

(** The kinds whose answer [derivesProtocolConformance] takes from a
    derivation check of another file, before it looks at the nominal. *)
Definition delegatedKinds : list KnownDerivableProtocolKind.t :=
  [KnownDerivableProtocolKind.Hashable;
   KnownDerivableProtocolKind.AdditiveArithmetic;
   KnownDerivableProtocolKind.Differentiable;
   KnownDerivableProtocolKind.PointwiseMultiplicative;
   KnownDerivableProtocolKind.ElementaryFunctions;
   KnownDerivableProtocolKind.KeyPathIterable;
   KnownDerivableProtocolKind.TensorArrayProtocol;
   KnownDerivableProtocolKind.TensorGroup;
   KnownDerivableProtocolKind.VectorProtocol;
   KnownDerivableProtocolKind.EuclideanDifferentiable].

(** The kinds that are derived for enums alone. *)
Definition enumOnlyKinds : list KnownDerivableProtocolKind.t :=
  [KnownDerivableProtocolKind.RawRepresentable;
   KnownDerivableProtocolKind.Comparable;
   KnownDerivableProtocolKind.CaseIterable;
   KnownDerivableProtocolKind.BridgedNSError;
   KnownDerivableProtocolKind.CodingKey].

(** The parameters of a case; none for a case without a parameter list. *)
Definition parameters (elt : EnumElementDecl) : list ParamDecl :=
  default [] (getParameterList elt).

(** The associated values of an enum, in declaration order. *)
Definition associatedValues (theEnum : EnumDecl) : list ParamDecl :=
  mjoin (parameters <$> getAllElements theEnum).

(** The type of the associated value does not conform, by the type
    checker's answer. *)
Definition nonconforming (S : Sema) (DC : DeclContextPtr)
    (protocol : ProtocolDecl) (param : ParamDecl) : Prop :=
  conformsToProtocol_isInvalid S
    (mapTypeIntoContext S DC (param_getInterfaceType param)) protocol DC
  = true.

#[global] Instance nonconforming_dec S DC protocol param :
  Decision (nonconforming S DC protocol param).
Proof. unfold nonconforming. apply _. Defined.

(** ** Sample inputs *)

(** A type checker that derives nothing and finds every type but the one
    at address 700 conforming. *)
Definition sample_Sema : Sema := {|
  canDeriveHashable := λ _, false;
  canDeriveAdditiveArithmetic := λ _ _, false;
  canDeriveDifferentiable := λ _ _, false;
  canDerivePointwiseMultiplicative := λ _ _, false;
  canDeriveElementaryFunctions := λ _ _, false;
  canDeriveKeyPathIterable := λ _, false;
  canDeriveTensorArrayProtocol := λ _ _, false;
  canDeriveTensorGroup := λ _ _, false;
  canDeriveVectorProtocol := λ _ _, false;
  canDeriveEuclideanDifferentiable := λ _ _, false;
  canDeriveRawRepresentable := λ _ _, true;
  canDeriveEquatable := λ _ _, true;
  canDeriveComparable := λ _ _, true;
  mapTypeIntoContext := λ _ T, T;
  conformsToProtocol_isInvalid := λ T _ _, T =? 700
|}.

(** [Int] is declared at 500 and has type 600, [String] is declared at 501;
    the type at 610 is the tuple [(x: Int, String)] with element types 600
    and 700. *)
Definition sample_ASTContext : ASTContext := {|
  getStringDecl := 501;
  getIntDecl := 500;
  getIntBuiltinInitDecl := λ _, 510;
  nominal_getDeclaredType := λ d, d + 100;
  getAnyNominal := λ T, T - 100;
  getAs_TupleType := λ T,
    if T =? 610 then Some [("x", 600); ("", 700)] else None;
  getWithoutParens := λ T, T;
  LValueType_get := λ T, T + 1000;
  TupleType_getEmpty := 900
|}.

Definition case_plain : EnumElementDecl := {|
  elt_getName := "plain";
  getParameterList := None;
  hasAssociatedValues := false;
  getArgumentInterfaceType := nullptr
|}.

(** [case pair(x: Int, String)] *)
Definition case_pair : EnumElementDecl := {|
  elt_getName := "pair";
  getParameterList :=
    Some [{| param_getName := "x"; param_getInterfaceType := 600 |};
          {| param_getName := ""; param_getInterfaceType := 700 |}];
  hasAssociatedValues := true;
  getArgumentInterfaceType := 610
|}.

(** [case single(Int)] *)
Definition case_single : EnumElementDecl := {|
  elt_getName := "single";
  getParameterList :=
    Some [{| param_getName := ""; param_getInterfaceType := 600 |}];
  hasAssociatedValues := true;
  getArgumentInterfaceType := 600
|}.

Definition sample_enum (elements : list EnumElementDecl) : EnumDecl := {|
  hasPotentiallyUnavailableCaseValue := false;
  hasOnlyCasesWithoutAssociatedValues :=
    forallb (λ elt, negb (hasAssociatedValues elt)) elements;
  isObjC := false;
  hasCases := match elements with [] => false | _ => true end;
  getRawType := nullptr;
  getAllElements := elements
|}.

Definition nominal_of (kind : NominalKind) : NominalTypeDecl := {|
  nominalKind := kind;
  nominal_getModuleScopeContext := 40
|}.

Definition protocol_of (known : KnownProtocolKind.t)
    (derivable : option KnownDerivableProtocolKind.t) : ProtocolDecl := {|
  getKnownProtocolKind := Some known;
  getKnownDerivableProtocolKind := derivable;
  getDeclaredType := 800
|}.

(** An extension in another file. *)
Definition extension_elsewhere : Decl := {|
  isa_ExtensionDecl := true;
  decl_getModuleScopeContext := 41
|}.

Definition sample_init : ValueDecl := {|
  valueDeclKind := IsConstructorDecl;
  getName := {| getBaseName := "init"; isCompoundName := true;
                getArgumentNames := ["from"] |};
  isStatic := false;
  isOperator := false;
  isFailable := false;
  isImplicitlyUnwrappedOptional := false;
  secondParameterName := ""
|}.

End DerivedConformanceSpec.

(** ** The protocol [getDerivableRequirement] turns to *)

Module DerivableRequirementSpec.
Import DerivedConformance.

(** The protocol kind, and the filter if any, that the body hands to
    [getRequirement] for a requirement; [None] where the body returns
    null without calling it. *)
Definition requirementProtocol (ctx : KnownIdentifiers)
    (requirement : ValueDecl)
    : option (KnownProtocolKind.t * option (ValueDecl → bool)) :=
  getDerivableRequirement_body ctx (λ kind filter, Some (kind, filter)) None
    requirement.

(** The protocols a requirement of each class of declaration can lead to. *)
Definition protocolsOf (kind : ValueDeclKind) : list KnownProtocolKind.t :=
  match kind with
  | IsVarDecl =>
    [KnownProtocolKind.RawRepresentable; KnownProtocolKind.Hashable;
     KnownProtocolKind.CaseIterable; KnownProtocolKind.BridgedNSError;
     KnownProtocolKind.CodingKey; KnownProtocolKind.AdditiveArithmetic;
     KnownProtocolKind.EuclideanDifferentiable;
     KnownProtocolKind.PointwiseMultiplicative;
     KnownProtocolKind.KeyPathIterable;
     KnownProtocolKind.TensorArrayProtocol; KnownProtocolKind.TensorGroup]
  | IsFuncDecl =>
    [KnownProtocolKind.Comparable; KnownProtocolKind.Equatable;
     KnownProtocolKind.AdditiveArithmetic; KnownProtocolKind.Differentiable;
     KnownProtocolKind.Encodable; KnownProtocolKind.Hashable;
     KnownProtocolKind.PointwiseMultiplicative;
     KnownProtocolKind.ElementaryFunctions;
     KnownProtocolKind.VectorProtocol;
     KnownProtocolKind.TensorArrayProtocol]
  | IsConstructorDecl =>
    [KnownProtocolKind.RawRepresentable; KnownProtocolKind.CodingKey;
     KnownProtocolKind.Decodable; KnownProtocolKind.TensorGroup;
     KnownProtocolKind.TensorArrayProtocol]
  | IsAssociatedTypeDecl =>
    [KnownProtocolKind.RawRepresentable; KnownProtocolKind.CaseIterable;
     KnownProtocolKind.Differentiable; KnownProtocolKind.KeyPathIterable;
     KnownProtocolKind.VectorProtocol]
  | IsOtherValueDecl => []
  end.

(** ** Sample inputs *)

Definition sample_ids : KnownIdentifiers := {|
  Id_rawValue := "rawValue"; Id_hashValue := "hashValue";
  Id_allCases := "allCases"; Id_nsErrorDomain := "_nsErrorDomain";
  Id_stringValue := "stringValue"; Id_intValue := "intValue";
  Id_zero := "zero";
  Id_differentiableVectorView := "differentiableVectorView";
  Id_one := "one"; Id_reciprocal := "reciprocal";
  Id_allKeyPaths := "allKeyPaths";
  Id_tensorHandleCount := "_tensorHandleCount";
  Id_typeList := "_typeList"; Id_move := "move"; Id_along := "along";
  Id_encode := "encode"; Id_to := "to"; Id_hash := "hash";
  Id_into := "into"; Id_scaled := "scaled"; Id_adding := "adding";
  Id_subtracting := "subtracting";
  Id_unpackTensorHandles := "_unpackTensorHandles"; Id_from := "from";
  Id_RawValue := "RawValue"; Id_AllCases := "AllCases";
  Id_TangentVector := "TangentVector"; Id_AllKeyPaths := "AllKeyPaths";
  Id_VectorSpaceScalar := "VectorSpaceScalar";
  ELEMENTARY_FUNCTION_UNARY := ["sqrt"; "cos"; "sin"; "exp"; "log"]
|}.

Definition func_named (base : string) (operator compound : bool)
    (labels : list string) (second : string) : ValueDecl := {|
  valueDeclKind := IsFuncDecl;
  getName := {| getBaseName := base; isCompoundName := compound;
                getArgumentNames := labels |};
  isStatic := true;
  isOperator := operator;
  isFailable := false;
  isImplicitlyUnwrappedOptional := false;
  secondParameterName := second
|}.

(** The operator [==]. *)
Definition equals_operator : ValueDecl :=
  func_named "==" true true [""; ""] "".

(** [pow(_:_:)] with a second parameter named [n], and the two overloads
    the protocol declares, with second parameters [y] and [n]. *)
Definition pow_n : ValueDecl := func_named "pow" false true [""; ""] "n".
Definition pow_overloads : list ValueDecl :=
  [func_named "pow" false true [""; ""] "y";
   func_named "pow" false true [""; ""] "n"].

(** Every protocol is there, with the derivable kind of [Equatable] for
    [Equatable] and none otherwise; every nominal conforms to every
    protocol, in context 40; the direct lookup finds the [pow] overloads. *)
Definition sample_Lookup : Lookup := {|
  getProtocol := λ kind,
    Some {| getKnownProtocolKind := Some kind;
            getKnownDerivableProtocolKind :=
              match kind with
              | KnownProtocolKind.Equatable =>
                  Some KnownDerivableProtocolKind.Equatable
              | _ => None
              end;
            getDeclaredType := 800 |};
  lookupConformance := λ _ _, Some 40;
  lookupDirect := λ _ _, pow_overloads;
  getSingleRequirement := λ _ _, Some equals_operator;
  inProtocolDecl := λ _, true;
  isProtocolRequirement := λ _, true
|}.


End DerivableRequirementSpec.

(** * Properties *)

(** ** The runs of the entry points *)

Lemma nonnull_true (p : ptr) : nonnull p = true ↔ p ≠ nullptr.
Proof.
  unfold nonnull. rewrite negb_true_iff. apply N.eqb_neq.
Qed.

Lemma nonnull_false (p : ptr) : nonnull p = false ↔ p = nullptr.
Proof.
  unfold nonnull. rewrite negb_false_iff. apply N.eqb_eq.
Qed.

Lemma swift_task_enqueueGlobal_run (job : JobPtr) (w : World) :
  swift_task_enqueueGlobal job w =
  MkRun () w
    [TsanRelease job; Trace (job_enqueue_global job);
     dispatch_call (swift_task_enqueueGlobal_hook w) (ArgsGlobal job)
       EnqueueGlobalImpl].
Proof. run_entry swift_task_enqueueGlobal. Qed.

Lemma swift_task_enqueueGlobalWithDelay_run (delay : JobDelay) (job : JobPtr)
    (w : World) :
  swift_task_enqueueGlobalWithDelay delay job w =
  MkRun () w
    [Trace (job_enqueue_global_with_delay delay job);
     dispatch_call (swift_task_enqueueGlobalWithDelay_hook w)
       (ArgsGlobalWithDelay delay job) EnqueueGlobalWithDelayImpl].
Proof. run_entry swift_task_enqueueGlobalWithDelay. Qed.

Lemma swift_task_enqueueGlobalWithDeadline_run
    (sec nsec tsec tnsec : long_long) (clock : int) (job : JobPtr)
    (w : World) :
  swift_task_enqueueGlobalWithDeadline sec nsec tsec tnsec clock job w =
  MkRun () w
    [dispatch_call (swift_task_enqueueGlobalWithDeadline_hook w)
       (ArgsGlobalWithDeadline sec nsec tsec tnsec clock job)
       EnqueueGlobalWithDeadlineImpl].
Proof. run_entry swift_task_enqueueGlobalWithDeadline. Qed.

Lemma swift_task_enqueueMainExecutor_run (job : JobPtr) (w : World) :
  swift_task_enqueueMainExecutor job w =
  MkRun () w
    [Trace (job_enqueue_main_executor job);
     dispatch_call (swift_task_enqueueMainExecutor_hook w)
       (ArgsMainExecutor job) EnqueueMainExecutorImpl].
Proof. run_entry swift_task_enqueueMainExecutor. Qed.

Lemma swift_concurrency_setMainActorExecutor_run (executor : HeapObjectPtr)
    (selfType : MetadataPtr) (wtable : WitnessTablePtr) (w : World) :
  log (swift_concurrency_setMainActorExecutor executor selfType wtable w) =
  [Stderr hello_line;
   ImplInvoke SetMainActorExecutorImpl
     (ArgsSetMainActorExecutor executor selfType wtable)].
Proof. reflexivity. Qed.

Lemma calls_dispatch_call (slot : FnPtr) (args : Args) (original : ImplFn) :
  calls [dispatch_call slot args original] =
  [dispatch_call slot args original].
Proof. unfold dispatch_call. by destruct (nonnull slot). Qed.

Lemma routed_dispatch_call (w : World) (pre : list Event) (slot : FnPtr)
    (args : Args) (original : ImplFn) :
  calls pre = [] →
  routed (MkRun () w (pre ++ [dispatch_call slot args original])) slot args
    original.
Proof.
  intros Hpre. unfold routed, calls in *. simpl.
  rewrite filter_app, Hpre. simpl.
  fold (calls [dispatch_call slot args original]).
  rewrite calls_dispatch_call. unfold dispatch_call.
  split; intros Hslot.
  - apply nonnull_true in Hslot. by rewrite Hslot.
  - apply nonnull_false in Hslot. by rewrite Hslot.
Qed.

(** The text of the line on [stderr]. *)
Example hello_line_text :
  hello_line =
  "[GlobalExecutor.cpp:163](swift_concurrency_setMainActorExecutor) hello
".
Proof. reflexivity. Qed.

(** ** C1: routing through the hook slots *)

(** C1.  For each of the four enqueue entry points, every job, all
    arguments and every state of the globals: if the entry point's hook slot
    is non-null, the call invokes that hook exactly once, passing the job
    (and the delay or deadline arguments) and a reference to the default
    implementation, and does not itself invoke the default implementation;
    if the slot is null, the call invokes the default implementation exactly
    once with the same arguments. *)
Theorem enqueue_routed_through_hook (w : World) (job : JobPtr)
    (delay : JobDelay) (sec nsec tsec tnsec : long_long) (clock : int) :
  routed (swift_task_enqueueGlobal job w)
    (swift_task_enqueueGlobal_hook w) (ArgsGlobal job) EnqueueGlobalImpl ∧
  routed (swift_task_enqueueGlobalWithDelay delay job w)
    (swift_task_enqueueGlobalWithDelay_hook w)
    (ArgsGlobalWithDelay delay job) EnqueueGlobalWithDelayImpl ∧
  routed (swift_task_enqueueGlobalWithDeadline sec nsec tsec tnsec clock job w)
    (swift_task_enqueueGlobalWithDeadline_hook w)
    (ArgsGlobalWithDeadline sec nsec tsec tnsec clock job)
    EnqueueGlobalWithDeadlineImpl ∧
  routed (swift_task_enqueueMainExecutor job w)
    (swift_task_enqueueMainExecutor_hook w) (ArgsMainExecutor job)
    EnqueueMainExecutorImpl.
Proof.
  rewrite swift_task_enqueueGlobal_run, swift_task_enqueueGlobalWithDelay_run,
    swift_task_enqueueGlobalWithDeadline_run,
    swift_task_enqueueMainExecutor_run.
  repeat split.
  - by apply (routed_dispatch_call w [_; _]).
  - by apply (routed_dispatch_call w [_; _]).
  - by apply (routed_dispatch_call w [_]).
  - by apply (routed_dispatch_call w [_]).
  - by apply (routed_dispatch_call w []).
  - by apply (routed_dispatch_call w []).
  - by apply (routed_dispatch_call w [_]).
  - by apply (routed_dispatch_call w [_]).
Qed.

Lemma enqueue_routed_through_hook_witness :
  calls (log (swift_task_enqueueGlobal 64 hooked_world)) =
    [HookInvoke 1024 (ArgsGlobal 64) EnqueueGlobalImpl] ∧
  calls (log (swift_task_enqueueGlobalWithDeadline 7 500 6 250 1 64
                hooked_world)) =
    [HookInvoke 1056 (ArgsGlobalWithDeadline 7 500 6 250 1 64)
       EnqueueGlobalWithDeadlineImpl] ∧
  calls (log (swift_task_enqueueGlobalWithDelay 30 64
                (process_start sample_memory))) =
    [ImplInvoke EnqueueGlobalWithDelayImpl (ArgsGlobalWithDelay 30 64)] ∧
  calls (log (swift_task_enqueueMainExecutor 64
                (process_start sample_memory))) =
    [ImplInvoke EnqueueMainExecutorImpl (ArgsMainExecutor 64)].
Proof.
  destruct (enqueue_routed_through_hook hooked_world 64 30 7 500 6 250 1)
    as ([Hglobal _] & _ & [Hdeadline _] & _).
  destruct (enqueue_routed_through_hook (process_start sample_memory)
              64 30 7 500 6 250 1)
    as (_ & [_ Hdelay] & _ & [_ Hmain]).
  split; [apply Hglobal; discriminate |].
  split; [apply Hdeadline; discriminate |].
  split; [apply Hdelay; reflexivity | apply Hmain; reflexivity].
Defined.

(** ** C2: trace events *)

(** The immediate, delayed and main-context entry points emit one trace
    event, of their own kind and carrying the job, and emit it before the
    call they end with. *)
Lemma enqueue_trace_then_call (w : World) (job : JobPtr) (delay : JobDelay) :
  (∃ pre call, log (swift_task_enqueueGlobal job w) =
     pre ++ [Trace (job_enqueue_global job); call] ∧
     traces pre = [] ∧ is_call call = true) ∧
  (∃ call, log (swift_task_enqueueGlobalWithDelay delay job w) =
     [Trace (job_enqueue_global_with_delay delay job); call] ∧
     is_call call = true) ∧
  (∃ call, log (swift_task_enqueueMainExecutor job w) =
     [Trace (job_enqueue_main_executor job); call] ∧ is_call call = true).
Proof.
  rewrite swift_task_enqueueGlobal_run, swift_task_enqueueGlobalWithDelay_run,
    swift_task_enqueueMainExecutor_run.
  assert (Hcall : ∀ slot args original,
             is_call (dispatch_call slot args original) = true).
  { intros slot args original. unfold dispatch_call.
    by destruct (nonnull slot). }
  split; [| split].
  - exists [TsanRelease job]. eexists. simpl. eauto.
  - eexists. simpl. eauto.
  - eexists. simpl. eauto.
Qed.

(** Each of the three carries the job it was given, and is the only trace
    event of the call. *)
Lemma enqueue_traces_job (w : World) (job : JobPtr) (delay : JobDelay) :
  trace_job <$> traces (log (swift_task_enqueueGlobal job w)) = [job] ∧
  trace_job <$> traces (log (swift_task_enqueueGlobalWithDelay delay job w))
    = [job] ∧
  trace_job <$> traces (log (swift_task_enqueueMainExecutor job w)) = [job].
Proof.
  rewrite swift_task_enqueueGlobal_run, swift_task_enqueueGlobalWithDelay_run,
    swift_task_enqueueMainExecutor_run.
  unfold dispatch_call. simpl.
  repeat split; by destruct (nonnull _).
Qed.

(** C2, on the deadline entry point.  The claim has every call of each of
    the four entry points emit exactly one trace event before routing.
    [swift_task_enqueueGlobalWithDeadline] emits none, in any state of the
    globals and for any arguments: its log is the one call it ends with. *)
Theorem deadline_enqueue_emits_no_trace (w : World)
    (sec nsec tsec tnsec : long_long) (clock : int) (job : JobPtr) :
  traces (log (swift_task_enqueueGlobalWithDeadline sec nsec tsec tnsec clock
                 job w)) = [] ∧
  length (log (swift_task_enqueueGlobalWithDeadline sec nsec tsec tnsec clock
                 job w)) = 1%nat.
Proof.
  rewrite swift_task_enqueueGlobalWithDeadline_run. simpl.
  unfold dispatch_call. by destruct (nonnull _).
Qed.

(** The same at process start and with a hook installed, next to the
    delayed entry point, which does trace. *)
Example deadline_enqueue_log :
  log (swift_task_enqueueGlobalWithDeadline 0 0 0 0 0 64
         (process_start sample_memory)) =
    [ImplInvoke EnqueueGlobalWithDeadlineImpl
       (ArgsGlobalWithDeadline 0 0 0 0 0 64)] ∧
  log (swift_task_enqueueGlobalWithDeadline 0 0 0 0 0 64 hooked_world) =
    [HookInvoke 1056 (ArgsGlobalWithDeadline 0 0 0 0 0 64)
       EnqueueGlobalWithDeadlineImpl] ∧
  log (swift_task_enqueueGlobalWithDelay 0 64 (process_start sample_memory)) =
    [Trace (job_enqueue_global_with_delay 0 64);
     ImplInvoke EnqueueGlobalWithDelayImpl (ArgsGlobalWithDelay 0 64)].
Proof. repeat split. Qed.

(** ** C3: the main-executor override *)

(** With dispatch, the test is against the address compiled into the file,
    whatever the override cells hold: [isMainExecutor] reads no global. *)
Lemma isMainExecutor_dispatch (t : Target) (e : ExecutorRef) :
  SWIFT_CONCURRENCY_ENABLE_DISPATCH t = true →
  isMainExecutor t e = true ↔ Identity e = _dispatch_main_q t.
Proof.
  intros Hdispatch. unfold isMainExecutor. rewrite Hdispatch. simpl.
  apply N.eqb_eq.
Qed.

(** Without dispatch, the test is for the null identity. *)
Lemma isMainExecutor_nondispatch (t : Target) (e : ExecutorRef) :
  SWIFT_CONCURRENCY_ENABLE_DISPATCH t = false →
  isMainExecutor t e = true ↔ Identity e = nullptr.
Proof.
  intros Hdispatch. unfold isMainExecutor, isGeneric. rewrite Hdispatch.
  simpl. apply N.eqb_eq.
Qed.

(** The setter does fill the two cells. *)
Lemma setMainActorExecutor_cells (executor : HeapObjectPtr)
    (selfType : MetadataPtr) (wtable : WitnessTablePtr) (w : World) :
  let w' :=
    world (swift_concurrency_setMainActorExecutor executor selfType wtable w)
  in
  mainExecutorIdentityOverride w' = executor ∧
  mainExecutorImplementationOverride w' = wtable.
Proof. by split. Qed.

(** C3, at a failing input.  The claim has [isMainExecutor], once an
    override (id2, caps2) is installed, answer true on a reference of
    identity id2 and false on the former default.  In the dispatch build,
    after [swift_concurrency_setMainActorExecutor] with id2 = 12288 and
    caps2 = 16384 the identity cell holds 12288, and yet [isMainExecutor]
    answers false on the reference built from (12288, 16384) and true on the
    one built from the address of [_dispatch_main_q]; in the build without
    dispatch it answers false on the former and true on the generic
    reference. *)
Theorem isMainExecutor_ignores_override :
  let w' :=
    world (swift_concurrency_setMainActorExecutor 12288 20480 16384
             (process_start sample_memory)) in
  mainExecutorIdentityOverride w' = 12288 ∧
  mainExecutorImplementationOverride w' = 16384 ∧
  isMainExecutor dispatch_target (forOrdinary 12288 16384) = false ∧
  isMainExecutor dispatch_target
    (forOrdinary (_dispatch_main_q dispatch_target)
       (_swift_task_getDispatchQueueSerialExecutorWitnessTable
          dispatch_target)) = true ∧
  isMainExecutor nondispatch_target (forOrdinary 12288 16384) = false ∧
  isMainExecutor nondispatch_target generic = true.
Proof. repeat split. Qed.

(** ** C5: identity only *)

(** C5.  The answer of [isMainExecutor] depends only on the identity of the
    reference: two references with the same identity handle get the same
    answer, whatever their capability tables, in every build. *)
Theorem isMainExecutor_identity_only (t : Target) (e1 e2 : ExecutorRef) :
  Identity e1 = Identity e2 → isMainExecutor t e1 = isMainExecutor t e2.
Proof.
  intros Hid. unfold isMainExecutor, isGeneric. by rewrite Hid.
Qed.

Lemma isMainExecutor_identity_only_witness :
  Identity (forOrdinary 4096 8192) = Identity (forOrdinary 4096 24576) ∧
  forOrdinary 4096 8192 ≠ forOrdinary 4096 24576 ∧
  isMainExecutor dispatch_target (forOrdinary 4096 8192) =
  isMainExecutor dispatch_target (forOrdinary 4096 24576).
Proof.
  split; [reflexivity |].
  split; [discriminate |].
  apply (isMainExecutor_identity_only dispatch_target
           (forOrdinary 4096 8192) (forOrdinary 4096 24576)).
  reflexivity.
Defined.

(** ** C6: process start *)

(** C6.  At process start the four hook slots are null, so the first call
    of each entry point goes to that entry point's default
    implementation. *)
Theorem process_start_routes_to_default (memory : gmap N Job) (job : JobPtr)
    (delay : JobDelay) (sec nsec tsec tnsec : long_long) (clock : int) :
  let w := process_start memory in
  (swift_task_enqueueGlobal_hook w = nullptr ∧
   swift_task_enqueueGlobalWithDelay_hook w = nullptr ∧
   swift_task_enqueueGlobalWithDeadline_hook w = nullptr ∧
   swift_task_enqueueMainExecutor_hook w = nullptr) ∧
  calls (log (swift_task_enqueueGlobal job w)) =
    [ImplInvoke EnqueueGlobalImpl (ArgsGlobal job)] ∧
  calls (log (swift_task_enqueueGlobalWithDelay delay job w)) =
    [ImplInvoke EnqueueGlobalWithDelayImpl (ArgsGlobalWithDelay delay job)] ∧
  calls (log (swift_task_enqueueGlobalWithDeadline sec nsec tsec tnsec clock
                job w)) =
    [ImplInvoke EnqueueGlobalWithDeadlineImpl
       (ArgsGlobalWithDeadline sec nsec tsec tnsec clock job)] ∧
  calls (log (swift_task_enqueueMainExecutor job w)) =
    [ImplInvoke EnqueueMainExecutorImpl (ArgsMainExecutor job)].
Proof. intros w. repeat split. Qed.

(** ** C7: the job and the arguments are passed along *)

Lemma call_args_dispatch_call (slot : FnPtr) (args : Args)
    (original : ImplFn) :
  call_args (dispatch_call slot args original) = Some args.
Proof. unfold dispatch_call. by destruct (nonnull slot). Qed.

(** C7.  Each enqueue entry point leaves the job records as they are (none
    written, none added) and passes on, in its one call to the hook or to
    the default implementation, the job reference it was given; the deadline
    entry point passes on [sec], [nsec], [tsec], [tnsec], [clock] and [job]
    unchanged and in that order. *)
Theorem enqueue_forwards_arguments (w : World) (job : JobPtr)
    (delay : JobDelay) (sec nsec tsec tnsec : long_long) (clock : int) :
  forwarded w (swift_task_enqueueGlobal job w) (ArgsGlobal job) ∧
  forwarded w (swift_task_enqueueGlobalWithDelay delay job w)
    (ArgsGlobalWithDelay delay job) ∧
  forwarded w
    (swift_task_enqueueGlobalWithDeadline sec nsec tsec tnsec clock job w)
    (ArgsGlobalWithDeadline sec nsec tsec tnsec clock job) ∧
  forwarded w (swift_task_enqueueMainExecutor job w) (ArgsMainExecutor job).
Proof.
  rewrite swift_task_enqueueGlobal_run, swift_task_enqueueGlobalWithDelay_run,
    swift_task_enqueueGlobalWithDeadline_run,
    swift_task_enqueueMainExecutor_run.
  unfold forwarded. simpl.
  rewrite !call_args_dispatch_call. by repeat split.
Qed.

(** The job reference that reaches the hook or the backend is the one the
    entry point was called with. *)
Corollary enqueue_forwards_job (w : World) (job : JobPtr) (delay : JobDelay)
    (sec nsec tsec tnsec : long_long) (clock : int) :
  let passed (r : Run unit) := omap (λ e, call_args e ≫= args_job) (log r) in
  passed (swift_task_enqueueGlobal job w) = [job] ∧
  passed (swift_task_enqueueGlobalWithDelay delay job w) = [job] ∧
  passed (swift_task_enqueueGlobalWithDeadline sec nsec tsec tnsec clock job
            w) = [job] ∧
  passed (swift_task_enqueueMainExecutor job w) = [job].
Proof.
  rewrite swift_task_enqueueGlobal_run, swift_task_enqueueGlobalWithDelay_run,
    swift_task_enqueueGlobalWithDeadline_run,
    swift_task_enqueueMainExecutor_run.
  simpl. rewrite !call_args_dispatch_call. by repeat split.
Qed.

(** A job record read back after a call is the record that was there. *)
Corollary enqueue_keeps_job_record (w : World) (job : JobPtr) (a : JobPtr) :
  jobs (world (swift_task_enqueueGlobal job w)) !! a = jobs w !! a ∧
  jobs (world (swift_task_enqueueMainExecutor job w)) !! a = jobs w !! a.
Proof.
  by rewrite swift_task_enqueueGlobal_run, swift_task_enqueueMainExecutor_run.
Qed.

(** ** C8: the main executor is the main executor *)

(** C8.  In every build configuration the reference returned by
    [swift_task_getMainExecutor] satisfies [isMainExecutor]. *)
Theorem getMainExecutor_isMainExecutor (t : Target) :
  isMainExecutor t (swift_task_getMainExecutor t) = true.
Proof.
  unfold isMainExecutor, swift_task_getMainExecutor.
  destruct (SWIFT_CONCURRENCY_ENABLE_DISPATCH t); simpl.
  - apply N.eqb_refl.
  - reflexivity.
Qed.

(** The three sample builds, and the reference each returns. *)
Example backend_samples :
  backend cooperative_target = CooperativeGlobalExecutor ∧
  backend dispatch_target = DispatchGlobalExecutor ∧
  backend nondispatch_target = NonDispatchGlobalExecutor.
Proof. by repeat split. Qed.

Example getMainExecutor_samples :
  swift_task_getMainExecutor cooperative_target = generic ∧
  swift_task_getMainExecutor nondispatch_target = generic ∧
  swift_task_getMainExecutor dispatch_target = forOrdinary 4096 8192.
Proof. by repeat split. Qed.

(** ** C9: without dispatch, every generic reference is the main executor *)

(** C9.  In a build without dispatch support [isMainExecutor] is the
    [isGeneric] test: it answers true on every generic reference, and so on
    generic references other than the one [swift_task_getMainExecutor]
    returns. *)
Theorem nondispatch_isMainExecutor_isGeneric (t : Target) :
  SWIFT_CONCURRENCY_ENABLE_DISPATCH t = false →
  (∀ e, isMainExecutor t e = isGeneric e) ∧
  (∀ e1 e2, e1 ≠ e2 → isGeneric e1 = true → isGeneric e2 = true →
     isMainExecutor t e1 = true ∧ isMainExecutor t e2 = true) ∧
  (∃ e, e ≠ swift_task_getMainExecutor t ∧ isGeneric e = true ∧
     isMainExecutor t e = true).
Proof.
  intros Hdispatch.
  assert (Heq : ∀ e, isMainExecutor t e = isGeneric e).
  { intros e. unfold isMainExecutor. by rewrite Hdispatch. }
  split; [exact Heq |]. split.
  - intros e1 e2 _ H1 H2. by rewrite !Heq.
  - exists (forOrdinary nullptr 1). rewrite Heq.
    unfold swift_task_getMainExecutor. rewrite Hdispatch. simpl.
    by repeat split.
Qed.

Lemma nondispatch_isMainExecutor_isGeneric_witness :
  SWIFT_CONCURRENCY_ENABLE_DISPATCH nondispatch_target = false ∧
  generic ≠ forOrdinary nullptr 8192 ∧
  isMainExecutor nondispatch_target generic = true ∧
  isMainExecutor nondispatch_target (forOrdinary nullptr 8192) = true.
Proof.
  split; [reflexivity |].
  split; [discriminate |].
  destruct (nondispatch_isMainExecutor_isGeneric nondispatch_target eq_refl)
    as (_ & Hall & _).
  apply (Hall generic (forOrdinary nullptr 8192));
    [discriminate | reflexivity | reflexivity].
Defined.

(** ** C10: the main-actor executor setter *)

(** C10.  Every call of [swift_concurrency_setMainActorExecutor], in any
    state of the hook slots, writes one diagnostic line to [stderr] and then
    calls [swift_concurrency_setMainActorExecutorImpl] once, with its three
    arguments unchanged; it calls no hook. *)
Theorem setMainActorExecutor_calls_impl (w : World)
    (executor : HeapObjectPtr) (selfType : MetadataPtr)
    (wtable : WitnessTablePtr) :
  let r := swift_concurrency_setMainActorExecutor executor selfType wtable w
  in
  log r =
    [Stderr hello_line;
     ImplInvoke SetMainActorExecutorImpl
       (ArgsSetMainActorExecutor executor selfType wtable)] ∧
  stderr_lines (log r) = [hello_line] ∧
  calls (log r) =
    [ImplInvoke SetMainActorExecutorImpl
       (ArgsSetMainActorExecutor executor selfType wtable)].
Proof. by repeat split. Qed.

(** * Further properties of GlobalExecutor.cpp *)

(** X1.  [isMainExecutor] answers true on exactly the references that have
    the identity of the reference [swift_task_getMainExecutor] returns, in
    every build. *)
Theorem isMainExecutor_iff_main_identity (t : Target) (e : ExecutorRef) :
  isMainExecutor t e = true ↔
  Identity e = Identity (swift_task_getMainExecutor t).
Proof.
  unfold isMainExecutor, swift_task_getMainExecutor, isGeneric.
  destruct (SWIFT_CONCURRENCY_ENABLE_DISPATCH t); simpl; apply N.eqb_eq.
Qed.

(** X2.  The immediate, delayed and main-context entry points emit exactly
    one trace event; it is of the entry point's kind, carries the arguments
    of the call, and is the event right before the call to the hook or to
    the default implementation, with which the log ends.  The immediate
    entry point does the thread-sanitizer release before that. *)
Theorem enqueue_traces_once_before_call (w : World) (job : JobPtr)
    (delay : JobDelay) :
  let shape (r : Run unit) (pre : list Event) (t : TraceEvent) :=
    traces (log r) = [t] ∧
    ∃ call, is_call call = true ∧ log r = pre ++ [Trace t; call] in
  shape (swift_task_enqueueGlobal job w) [TsanRelease job]
    (job_enqueue_global job) ∧
  shape (swift_task_enqueueGlobalWithDelay delay job w) []
    (job_enqueue_global_with_delay delay job) ∧
  shape (swift_task_enqueueMainExecutor job w) []
    (job_enqueue_main_executor job).
Proof.
  intros shape. unfold shape.
  rewrite swift_task_enqueueGlobal_run, swift_task_enqueueGlobalWithDelay_run,
    swift_task_enqueueMainExecutor_run.
  unfold dispatch_call. simpl.
  repeat split; try (by destruct (nonnull _));
    (eexists; split; [| reflexivity]; by destruct (nonnull _)).
Qed.


(** X4.  The two [#if] chains agree outside the cooperative build: where
    the dispatch backend is included the main executor is the dispatch main
    queue with the dispatch witness table, and where the non-dispatch
    backend is included it is the generic reference.  The cooperative flag
    selects the cooperative backend and has no part in the main executor:
    [swift_task_getMainExecutor] and [isMainExecutor] follow the dispatch
    flag alone. *)
Theorem backend_and_main_executor (t : Target) :
  (backend t = DispatchGlobalExecutor →
   swift_task_getMainExecutor t =
   forOrdinary (_dispatch_main_q t)
     (_swift_task_getDispatchQueueSerialExecutorWitnessTable t)) ∧
  (backend t = NonDispatchGlobalExecutor →
   swift_task_getMainExecutor t = generic) ∧
  (∀ cooperative : bool,
     let t' := {|
       SWIFT_CONCURRENCY_COOPERATIVE_GLOBAL_EXECUTOR := cooperative;
       SWIFT_CONCURRENCY_ENABLE_DISPATCH :=
         SWIFT_CONCURRENCY_ENABLE_DISPATCH t;
       _dispatch_main_q := _dispatch_main_q t;
       _swift_task_getDispatchQueueSerialExecutorWitnessTable :=
         _swift_task_getDispatchQueueSerialExecutorWitnessTable t |} in
     (cooperative = true → backend t' = CooperativeGlobalExecutor) ∧
     swift_task_getMainExecutor t' = swift_task_getMainExecutor t ∧
     ∀ e, isMainExecutor t' e = isMainExecutor t e).
Proof.
  unfold backend, swift_task_getMainExecutor.
  split; [| split].
  - destruct (SWIFT_CONCURRENCY_COOPERATIVE_GLOBAL_EXECUTOR t); [done |].
    by destruct (SWIFT_CONCURRENCY_ENABLE_DISPATCH t).
  - destruct (SWIFT_CONCURRENCY_COOPERATIVE_GLOBAL_EXECUTOR t); [done |].
    by destruct (SWIFT_CONCURRENCY_ENABLE_DISPATCH t).
  - intros cooperative. simpl. split; [by intros -> |]. by split.
Qed.

Lemma backend_and_main_executor_witness :
  backend dispatch_target = DispatchGlobalExecutor ∧
  swift_task_getMainExecutor dispatch_target = forOrdinary 4096 8192 ∧
  backend nondispatch_target = NonDispatchGlobalExecutor ∧
  swift_task_getMainExecutor nondispatch_target = generic.
Proof.
  destruct (backend_and_main_executor dispatch_target) as (Hd & _ & _).
  destruct (backend_and_main_executor nondispatch_target) as (_ & Hn & _).
  split; [reflexivity |].
  split; [apply Hd; reflexivity |].
  split; [reflexivity | apply Hn; reflexivity].
Defined.

(** * Properties of DerivedConformances.cpp *)

Section DerivesProtocolConformance.
Import DerivedConformance DerivedConformanceSpec.

Context (S : Sema) (C : ASTContext) (DC : ptr).

Ltac by_kind kind :=
  unfold derivesProtocolConformance;
  match goal with
  | H : getKnownDerivableProtocolKind _ = _ |- _ => rewrite H
  end;
  try destruct kind; simpl.

(** X5.  [RawRepresentable], [Comparable], [CaseIterable],
    [BridgedNSError] and [CodingKey] are derived for enums only: when
    [derivesProtocolConformance] answers true for one of them, the nominal
    is an enum. *)
Theorem derives_enum_only_kinds (Nominal : NominalTypeDecl)
    (Protocol : ProtocolDecl) (kind : KnownDerivableProtocolKind.t) :
  getKnownDerivableProtocolKind Protocol = Some kind →
  kind ∈ enumOnlyKinds →
  derivesProtocolConformance S C DC Nominal Protocol = true →
  ∃ enumDecl, nominalKind Nominal = IsEnumDecl enumDecl.
Proof.
  intros Hkind Hin. unfold enumOnlyKinds in Hin.
  by_kind kind; try (exfalso; set_solver);
    unfold dyn_cast_EnumDecl, isa_StructDecl, isa_ClassDecl;
    destruct (nominalKind Nominal); simpl; eauto; discriminate.
Qed.

(** X6.  For [Encodable] and [Decodable] the answer is true for every
    struct and every class and false for every other nominal, enums
    included; no derivation check is consulted. *)
Theorem derives_codable (Nominal : NominalTypeDecl)
    (Protocol : ProtocolDecl) :
  getKnownDerivableProtocolKind Protocol
    = Some KnownDerivableProtocolKind.Encodable ∨
  getKnownDerivableProtocolKind Protocol
    = Some KnownDerivableProtocolKind.Decodable →
  derivesProtocolConformance S C DC Nominal Protocol =
  match nominalKind Nominal with
  | IsStructDecl | IsClassDecl _ => true
  | IsEnumDecl _ | IsProtocolDecl => false
  end.
Proof.
  intros [Hkind | Hkind]; by_kind tt;
    unfold dyn_cast_EnumDecl, isa_StructDecl, isa_ClassDecl;
    by destruct (nominalKind Nominal).
Qed.

(** X7.  For [Equatable] the answer is that of [canDeriveEquatable] for an
    enum and for a struct, and false for a class and for a protocol. *)
Theorem derives_equatable (Nominal : NominalTypeDecl)
    (Protocol : ProtocolDecl) :
  getKnownDerivableProtocolKind Protocol
    = Some KnownDerivableProtocolKind.Equatable →
  derivesProtocolConformance S C DC Nominal Protocol =
  match nominalKind Nominal with
  | IsEnumDecl _ | IsStructDecl => canDeriveEquatable S DC Nominal
  | IsClassDecl _ | IsProtocolDecl => false
  end.
Proof.
  intros Hkind; by_kind tt;
    unfold dyn_cast_EnumDecl, isa_StructDecl, isa_ClassDecl;
    by destruct (nominalKind Nominal).
Qed.

(** X8.  An enum with a potentially unavailable case derives neither
    [Comparable] nor [CaseIterable], whatever [canDeriveComparable] says;
    and [CaseIterable] is derived exactly for the enums without such a case
    whose cases all lack associated values. *)
Theorem derives_needs_available_cases (Nominal : NominalTypeDecl)
    (Protocol : ProtocolDecl) :
  (∀ enumDecl,
     nominalKind Nominal = IsEnumDecl enumDecl →
     hasPotentiallyUnavailableCaseValue enumDecl = true →
     getKnownDerivableProtocolKind Protocol
       = Some KnownDerivableProtocolKind.Comparable ∨
     getKnownDerivableProtocolKind Protocol
       = Some KnownDerivableProtocolKind.CaseIterable →
     derivesProtocolConformance S C DC Nominal Protocol = false) ∧
  (getKnownDerivableProtocolKind Protocol
     = Some KnownDerivableProtocolKind.CaseIterable →
   derivesProtocolConformance S C DC Nominal Protocol = true ↔
   ∃ enumDecl,
     nominalKind Nominal = IsEnumDecl enumDecl ∧
     hasPotentiallyUnavailableCaseValue enumDecl = false ∧
     hasOnlyCasesWithoutAssociatedValues enumDecl = true).
Proof.
  split.
  - intros enumDecl Henum Hunavailable [Hkind | Hkind]; by_kind tt;
      unfold dyn_cast_EnumDecl; rewrite Henum, Hunavailable; done.
  - intros Hkind. by_kind tt.
    unfold dyn_cast_EnumDecl, isa_StructDecl, isa_ClassDecl.
    destruct (nominalKind Nominal) as [enumDecl | | |]; simpl.
    + rewrite andb_true_iff, negb_true_iff. split.
      * intros [? ?]. by exists enumDecl.
      * intros (e & [= <-] & ? & ?). done.
    + split; [done | by intros (? & ? & _)].
    + split; [done | by intros (? & ? & _)].
    + split; [done | by intros (? & ? & _)].
Qed.

(** X9.  A protocol that is not a known derivable one, and [OptionSet],
    are never derived; and for a nominal that is neither an enum, a struct
    nor a class, only the kinds delegated to a derivation check can be. *)
Theorem derives_never (Nominal : NominalTypeDecl) (Protocol : ProtocolDecl) :
  derivesProtocolConformance S C DC Nominal Protocol = true →
  ∃ kind,
    getKnownDerivableProtocolKind Protocol = Some kind ∧
    kind ≠ KnownDerivableProtocolKind.OptionSet ∧
    (nominalKind Nominal = IsProtocolDecl → kind ∈ delegatedKinds).
Proof.
  unfold derivesProtocolConformance, delegatedKinds.
  destruct (getKnownDerivableProtocolKind Protocol) as [kind |];
    [| done].
  intros Hderives. exists kind. split; [done |].
  destruct kind; simpl in Hderives; try done;
    (split; [done |]); intros Hproto; try set_solver;
    unfold dyn_cast_EnumDecl, isa_StructDecl, isa_ClassDecl in Hderives;
    rewrite Hproto in Hderives; done.
Qed.

End DerivesProtocolConformance.

Section DerivesWitnesses.
Import DerivedConformance DerivedConformanceSpec.

Lemma derives_enum_only_kinds_witness :
  derivesProtocolConformance sample_Sema sample_ASTContext 40
    (nominal_of (IsEnumDecl (sample_enum [case_plain])))
    (protocol_of KnownProtocolKind.CaseIterable
       (Some KnownDerivableProtocolKind.CaseIterable)) = true ∧
  ∃ enumDecl,
    nominalKind (nominal_of (IsEnumDecl (sample_enum [case_plain])))
    = IsEnumDecl enumDecl.
Proof.
  split; [reflexivity |].
  apply (derives_enum_only_kinds sample_Sema sample_ASTContext 40
           (nominal_of (IsEnumDecl (sample_enum [case_plain])))
           (protocol_of KnownProtocolKind.CaseIterable
              (Some KnownDerivableProtocolKind.CaseIterable))
           KnownDerivableProtocolKind.CaseIterable).
  - reflexivity.
  - unfold enumOnlyKinds. repeat constructor.
  - reflexivity.
Defined.

Lemma derives_codable_witness :
  derivesProtocolConformance sample_Sema sample_ASTContext 40
    (nominal_of (IsClassDecl {| class_isFinal := false |}))
    (protocol_of KnownProtocolKind.Decodable
       (Some KnownDerivableProtocolKind.Decodable)) = true ∧
  derivesProtocolConformance sample_Sema sample_ASTContext 40
    (nominal_of (IsEnumDecl (sample_enum [case_plain])))
    (protocol_of KnownProtocolKind.Encodable
       (Some KnownDerivableProtocolKind.Encodable)) = false.
Proof.
  split.
  - apply (derives_codable sample_Sema sample_ASTContext 40
             (nominal_of (IsClassDecl {| class_isFinal := false |}))
             (protocol_of KnownProtocolKind.Decodable
                (Some KnownDerivableProtocolKind.Decodable))).
    right. reflexivity.
  - apply (derives_codable sample_Sema sample_ASTContext 40
             (nominal_of (IsEnumDecl (sample_enum [case_plain])))
             (protocol_of KnownProtocolKind.Encodable
                (Some KnownDerivableProtocolKind.Encodable))).
    left. reflexivity.
Defined.

Lemma derives_equatable_witness :
  derivesProtocolConformance sample_Sema sample_ASTContext 40
    (nominal_of IsStructDecl)
    (protocol_of KnownProtocolKind.Equatable
       (Some KnownDerivableProtocolKind.Equatable)) = true ∧
  derivesProtocolConformance sample_Sema sample_ASTContext 40
    (nominal_of (IsClassDecl {| class_isFinal := true |}))
    (protocol_of KnownProtocolKind.Equatable
       (Some KnownDerivableProtocolKind.Equatable)) = false.
Proof.
  split.
  - apply (derives_equatable sample_Sema sample_ASTContext 40
             (nominal_of IsStructDecl)
             (protocol_of KnownProtocolKind.Equatable
                (Some KnownDerivableProtocolKind.Equatable))).
    reflexivity.
  - apply (derives_equatable sample_Sema sample_ASTContext 40
             (nominal_of (IsClassDecl {| class_isFinal := true |}))
             (protocol_of KnownProtocolKind.Equatable
                (Some KnownDerivableProtocolKind.Equatable))).
    reflexivity.
Defined.

(** An enum whose one case may be unavailable. *)
Lemma derives_needs_available_cases_witness :
  let enumDecl := {|
    hasPotentiallyUnavailableCaseValue := true;
    hasOnlyCasesWithoutAssociatedValues := true;
    isObjC := false;
    hasCases := true;
    getRawType := nullptr;
    getAllElements := [case_plain]
  |} in
  derivesProtocolConformance sample_Sema sample_ASTContext 40
    (nominal_of (IsEnumDecl enumDecl))
    (protocol_of KnownProtocolKind.Comparable
       (Some KnownDerivableProtocolKind.Comparable)) = false ∧
  derivesProtocolConformance sample_Sema sample_ASTContext 40
    (nominal_of (IsEnumDecl (sample_enum [case_plain])))
    (protocol_of KnownProtocolKind.CaseIterable
       (Some KnownDerivableProtocolKind.CaseIterable)) = true.
Proof.
  intros enumDecl. split.
  - destruct (derives_needs_available_cases sample_Sema sample_ASTContext 40
                (nominal_of (IsEnumDecl enumDecl))
                (protocol_of KnownProtocolKind.Comparable
                   (Some KnownDerivableProtocolKind.Comparable)))
      as [Hunavailable _].
    apply (Hunavailable enumDecl); [reflexivity | reflexivity |].
    left. reflexivity.
  - destruct (derives_needs_available_cases sample_Sema sample_ASTContext 40
                (nominal_of (IsEnumDecl (sample_enum [case_plain])))
                (protocol_of KnownProtocolKind.CaseIterable
                   (Some KnownDerivableProtocolKind.CaseIterable)))
      as [_ Hiff].
    apply Hiff; [reflexivity |].
    exists (sample_enum [case_plain]). repeat split.
Defined.

Lemma derives_never_witness :
  derivesProtocolConformance sample_Sema sample_ASTContext 40
    (nominal_of IsStructDecl)
    (protocol_of KnownProtocolKind.Encodable
       (Some KnownDerivableProtocolKind.Encodable)) = true ∧
  ∃ kind,
    getKnownDerivableProtocolKind
      (protocol_of KnownProtocolKind.Encodable
         (Some KnownDerivableProtocolKind.Encodable)) = Some kind ∧
    kind ≠ KnownDerivableProtocolKind.OptionSet ∧
    (nominalKind (nominal_of IsStructDecl) = IsProtocolDecl →
     kind ∈ delegatedKinds).
Proof.
  split; [reflexivity |].
  apply (derives_never sample_Sema sample_ASTContext 40
           (nominal_of IsStructDecl)
           (protocol_of KnownProtocolKind.Encodable
              (Some KnownDerivableProtocolKind.Encodable))).
  reflexivity.
Defined.

End DerivesWitnesses.

Section DisallowedContext.
Import DerivedConformance DerivedConformanceSpec.

(** X10.  [checkAndDiagnoseDisallowedContext] returns true exactly when it
    has emitted a diagnostic, and what it emits is either nothing, or the
    cross-file error on the conformance followed by the note on the
    nominal, or the one error about an initializer in an extension of a
    non-final class; the initializer error is never added to the cross-file
    one. *)
Theorem checkAndDiagnose_result_and_diagnostics (self : t)
    (synthesizing : ValueDecl) :
  let r := checkAndDiagnoseDisallowedContext self synthesizing in
  (r.1 = true ↔ r.2 ≠ []) ∧
  (r.2 = [] ∨
   r.2 = [cannot_synthesize_in_crossfile_extension (ConformanceDecl self)
            (getProtocolType self);
          kind_declared_here (Nominal self) DescriptiveDeclKind_Type] ∨
   r.2 = [cannot_synthesize_init_in_extension_of_nonfinal
            (ConformanceDecl self) (getProtocolType self)
            (getName synthesizing)]).
Proof.
  unfold checkAndDiagnoseDisallowedContext. simpl.
  repeat match goal with
         | |- context [if ?b then _ else _] => destruct b
         | |- context [match ?o with Some _ => _ | None => _ end] =>
             destruct o
         end; simpl; naive_solver.
Qed.

(** X11.  For [Equatable] and for [Hashable] on an enum whose cases all
    lack associated values nothing is diagnosed, in whatever file the
    conformance is declared and whatever is being synthesized. *)
Theorem checkAndDiagnose_allows_simple_enum (self : t)
    (synthesizing : ValueDecl) (ED : EnumDecl) :
  getKnownProtocolKind (Protocol self) = Some KnownProtocolKind.Equatable ∨
  getKnownProtocolKind (Protocol self) = Some KnownProtocolKind.Hashable →
  nominalKind (Nominal self) = IsEnumDecl ED →
  hasOnlyCasesWithoutAssociatedValues ED = true →
  checkAndDiagnoseDisallowedContext self synthesizing = (false, []).
Proof.
  intros Hproto Henum Hsimple.
  unfold checkAndDiagnoseDisallowedContext, isSpecificProtocol,
    dyn_cast_EnumDecl, dyn_cast_ClassDecl.
  rewrite Henum, Hsimple.
  destruct Hproto as [-> | ->]; by simpl.
Qed.

(** X12.  In another file than the nominal's, every other conformance is
    refused: unless the protocol is [Equatable] or [Hashable] and the
    nominal an enum whose cases all lack associated values, the function
    returns true with the cross-file error and the note. *)
Theorem checkAndDiagnose_refuses_crossfile (self : t)
    (synthesizing : ValueDecl) :
  nominal_getModuleScopeContext (Nominal self)
    ≠ decl_getModuleScopeContext (ConformanceDecl self) →
  ¬ ((getKnownProtocolKind (Protocol self)
        = Some KnownProtocolKind.Equatable ∨
      getKnownProtocolKind (Protocol self)
        = Some KnownProtocolKind.Hashable) ∧
     ∃ ED, nominalKind (Nominal self) = IsEnumDecl ED ∧
           hasOnlyCasesWithoutAssociatedValues ED = true) →
  checkAndDiagnoseDisallowedContext self synthesizing =
  (true,
   [cannot_synthesize_in_crossfile_extension (ConformanceDecl self)
      (getProtocolType self);
    kind_declared_here (Nominal self) DescriptiveDeclKind_Type]).
Proof.
  intros Hfile Hnot.
  unfold checkAndDiagnoseDisallowedContext, isSpecificProtocol,
    dyn_cast_EnumDecl.
  apply N.eqb_neq in Hfile. rewrite Hfile.
  repeat case_bool_decide; simpl;
    destruct (nominalKind (Nominal self)) as [ED | | |] eqn:Hkind;
    simpl; try done;
    destruct (hasOnlyCasesWithoutAssociatedValues ED) eqn:Hsimple;
    simpl; try done;
    exfalso; apply Hnot; naive_solver.
Qed.

End DisallowedContext.

Section DisallowedContextWitnesses.
Import DerivedConformance DerivedConformanceSpec.

(** X13.  In the file of the nominal the one synthesis refused is that of
    an initializer in an extension of a non-final class. *)
Theorem checkAndDiagnose_same_file (self : t) (synthesizing : ValueDecl) :
  nominal_getModuleScopeContext (Nominal self)
    = decl_getModuleScopeContext (ConformanceDecl self) →
  (checkAndDiagnoseDisallowedContext self synthesizing).1 = true ↔
  ∃ CD, nominalKind (Nominal self) = IsClassDecl CD ∧
        class_isFinal CD = false ∧
        valueDeclKind synthesizing = IsConstructorDecl ∧
        isa_ExtensionDecl (ConformanceDecl self) = true.
Proof.
  intros Hfile. unfold checkAndDiagnoseDisallowedContext.
  apply N.eqb_eq in Hfile. rewrite Hfile, andb_false_r.
  unfold dyn_cast_ClassDecl, isa_ConstructorDecl.
  destruct (nominalKind (Nominal self)) as [| | CD |];
    try (split; [done | by intros (? & ? & _)]).
  destruct (class_isFinal CD) eqn:Hfinal,
    (valueDeclKind synthesizing) eqn:Hsynth,
    (isa_ExtensionDecl (ConformanceDecl self)) eqn:Hext; simpl;
    split; try done; try (intros (? & [= <-] & ? & ? & ?); congruence).
  intros _. by exists CD.
Qed.

Lemma checkAndDiagnose_allows_simple_enum_witness :
  checkAndDiagnoseDisallowedContext
    {| ConformanceDecl := extension_elsewhere;
       Nominal := nominal_of (IsEnumDecl (sample_enum [case_plain]));
       Protocol := protocol_of KnownProtocolKind.Hashable
                     (Some KnownDerivableProtocolKind.Hashable) |}
    sample_init = (false, []).
Proof.
  apply (checkAndDiagnose_allows_simple_enum
           {| ConformanceDecl := extension_elsewhere;
              Nominal := nominal_of (IsEnumDecl (sample_enum [case_plain]));
              Protocol := protocol_of KnownProtocolKind.Hashable
                            (Some KnownDerivableProtocolKind.Hashable) |}
           sample_init (sample_enum [case_plain])).
  - right. reflexivity.
  - reflexivity.
  - reflexivity.
Defined.

(** [Hashable] on an enum with a payload, from another file. *)
Lemma checkAndDiagnose_refuses_crossfile_witness :
  (checkAndDiagnoseDisallowedContext
     {| ConformanceDecl := extension_elsewhere;
        Nominal := nominal_of (IsEnumDecl (sample_enum [case_single]));
        Protocol := protocol_of KnownProtocolKind.Hashable
                      (Some KnownDerivableProtocolKind.Hashable) |}
     sample_init).1 = true.
Proof.
  rewrite (checkAndDiagnose_refuses_crossfile
             {| ConformanceDecl := extension_elsewhere;
                Nominal := nominal_of (IsEnumDecl (sample_enum [case_single]));
                Protocol := protocol_of KnownProtocolKind.Hashable
                              (Some KnownDerivableProtocolKind.Hashable) |}
             sample_init).
  - reflexivity.
  - simpl. discriminate.
  - simpl. intros (_ & ED & [= <-] & Hsimple). discriminate Hsimple.
Defined.

(** [Decodable] in an extension, in the same file, of a non-final class. *)
Lemma checkAndDiagnose_same_file_witness :
  (checkAndDiagnoseDisallowedContext
     {| ConformanceDecl :=
          {| isa_ExtensionDecl := true; decl_getModuleScopeContext := 40 |};
        Nominal := nominal_of (IsClassDecl {| class_isFinal := false |});
        Protocol := protocol_of KnownProtocolKind.Decodable
                      (Some KnownDerivableProtocolKind.Decodable) |}
     sample_init).1 = true.
Proof.
  apply (checkAndDiagnose_same_file
           {| ConformanceDecl :=
                {| isa_ExtensionDecl := true;
                   decl_getModuleScopeContext := 40 |};
              Nominal := nominal_of (IsClassDecl {| class_isFinal := false |});
              Protocol := protocol_of KnownProtocolKind.Decodable
                            (Some KnownDerivableProtocolKind.Decodable) |}
           sample_init).
  - reflexivity.
  - exists {| class_isFinal := false |}. repeat split.
Defined.

End DisallowedContextWitnesses.

Section AssociatedValues.
Import DerivedConformance DerivedConformanceSpec.

Context (S : Sema) (DC : ptr) (protocol : ProtocolDecl).

(** The inner loop pushes the nonconforming parameters of one case. *)
Lemma nonconforming_inner_loop (PL acc : list ParamDecl) :
  foldl
    (λ acc param,
       if conformsToProtocol_isInvalid S
            (mapTypeIntoContext S DC (param_getInterfaceType param))
            protocol DC
       then acc ++ [param] else acc)
    acc PL
  = acc ++ filter (nonconforming S DC protocol) PL.
Proof.
  revert acc. induction PL as [| param PL IH]; intros acc; simpl.
  - by rewrite app_nil_r.
  - rewrite IH, filter_cons.
    destruct (decide (nonconforming S DC protocol param)) as [Hbad | Hok].
    + unfold nonconforming in Hbad. by rewrite Hbad, <- app_assoc.
    + unfold nonconforming in Hok. apply not_true_is_false in Hok.
      by rewrite Hok.
Qed.

(** The outer loop, from any accumulator. *)
Lemma nonconforming_outer_loop (elts : list EnumElementDecl)
    (acc : list ParamDecl) :
  foldl
    (λ acc elt,
       match getParameterList elt with
       | None => acc
       | Some PL =>
         foldl
           (λ acc param,
              if conformsToProtocol_isInvalid S
                   (mapTypeIntoContext S DC (param_getInterfaceType param))
                   protocol DC
              then acc ++ [param] else acc)
           acc PL
       end)
    acc elts
  = acc ++ filter (nonconforming S DC protocol)
             (mjoin (parameters <$> elts)).
Proof.
  revert acc. induction elts as [| elt elts IH]; intros acc; simpl.
  - by rewrite filter_nil, app_nil_r.
  - rewrite filter_app, app_assoc, IH. unfold parameters at 2.
    destruct (getParameterList elt) as [PL |]; simpl.
    + by rewrite nonconforming_inner_loop.
    + by rewrite filter_nil, app_nil_r.
Qed.

(** X14.  [associatedValuesNotConformingToProtocol] returns the associated
    values of the enum whose type does not conform, each once per
    occurrence and in declaration order: the cases in order, the parameters
    of a case in order, a case without parameter list giving none. *)
Theorem associatedValuesNotConforming_is_filter (theEnum : EnumDecl) :
  associatedValuesNotConformingToProtocol S DC theEnum protocol =
  filter (nonconforming S DC protocol) (associatedValues theEnum).
Proof.
  unfold associatedValuesNotConformingToProtocol, associatedValues.
  cbv zeta. by rewrite nonconforming_outer_loop.
Qed.

(** An associated value is returned exactly when it is a parameter of a
    case of the enum and its type does not conform. *)
Lemma associatedValuesNotConforming_elem_of (theEnum : EnumDecl)
    (param : ParamDecl) :
  param ∈ associatedValuesNotConformingToProtocol S DC theEnum protocol ↔
  (∃ elt PL, elt ∈ getAllElements theEnum ∧
             getParameterList elt = Some PL ∧ param ∈ PL) ∧
  nonconforming S DC protocol param.
Proof.
  unfold associatedValuesNotConformingToProtocol. cbv zeta.
  rewrite nonconforming_outer_loop, app_nil_l, list_elem_of_filter.
  rewrite list_elem_of_join.
  split.
  - intros [Hbad (l & Hparam & Hl)]. split; [| done].
    apply list_elem_of_fmap in Hl as (elt & -> & Helt).
    unfold parameters in Hparam.
    destruct (getParameterList elt) as [PL |] eqn:HPL; simpl in Hparam.
    + by exists elt, PL.
    + by apply elem_of_nil in Hparam.
  - intros [(elt & PL & Helt & HPL & Hparam) Hbad]. split; [done |].
    exists PL. split; [done |].
    apply list_elem_of_fmap. exists elt. split; [| done].
    unfold parameters. by rewrite HPL.
Qed.

(** X15.  [allAssociatedValuesConformToProtocol] is true exactly when the
    type of every parameter of every case conforms; in particular it is
    true for an enum without cases and for one whose cases have no
    parameter list. *)
Theorem allAssociatedValuesConform_iff (theEnum : EnumDecl) :
  allAssociatedValuesConformToProtocol S DC theEnum protocol = true ↔
  ∀ elt PL param,
    elt ∈ getAllElements theEnum → getParameterList elt = Some PL →
    param ∈ PL → ¬ nonconforming S DC protocol param.
Proof.
  unfold allAssociatedValuesConformToProtocol.
  destruct (associatedValuesNotConformingToProtocol S DC theEnum protocol)
    as [| bad rest] eqn:Hresult.
  - split; [| done]. intros _ elt PL param Helt HPL Hparam Hbad.
    assert (Hin : param ∈
      associatedValuesNotConformingToProtocol S DC theEnum protocol).
    { apply associatedValuesNotConforming_elem_of. naive_solver. }
    rewrite Hresult in Hin. by apply elem_of_nil in Hin.
  - split; [done |]. intros Hall. exfalso.
    assert (Hin : bad ∈
      associatedValuesNotConformingToProtocol S DC theEnum protocol).
    { rewrite Hresult. apply list_elem_of_here. }
    apply associatedValuesNotConforming_elem_of in Hin
      as [(elt & PL & Helt & HPL & Hparam) Hbad].
    by apply (Hall elt PL bad).
Qed.

End AssociatedValues.

Section IndexedVarDecl.
Import DerivedConformance DerivedConformanceSpec.

(** The name is the prefix character followed by the decimal digits. *)
Lemma indexedVarDecl_name (prefixChar : ascii) (index : Z) (type : ptr)
    (varContext : ptr) :
  var_Name (indexedVarDecl prefixChar index type varContext) =
  String prefixChar (pretty (APInt32 index)).
Proof. reflexivity. Qed.

Lemma APInt32_inj_int (i j : Z) :
  (- 2 ^ 31 ≤ i < 2 ^ 31)%Z → (- 2 ^ 31 ≤ j < 2 ^ 31)%Z →
  APInt32 i = APInt32 j → i = j.
Proof.
  unfold APInt32. intros Hi Hj Heq.
  apply (f_equal Z.of_N) in Heq.
  rewrite !Z2N.id in Heq by (apply Z.mod_pos_bound; lia).
  assert (Hcases : ∀ k : Z, (- 2 ^ 31 ≤ k < 2 ^ 31)%Z →
            (k `mod` 2 ^ 32 = if decide (0 ≤ k) then k else k + 2 ^ 32)%Z).
  { intros k Hk. case_decide.
    - apply Z.mod_small. lia.
    - symmetry. apply (Z.mod_unique_pos _ _ (-1)); lia. }
  rewrite (Hcases i Hi), (Hcases j Hj) in Heq.
  repeat case_decide; lia.
Qed.

(** X16.  Two variables made by [indexedVarDecl] have the same name exactly
    when they were made with the same prefix character and the same index,
    for indices that an [int] holds; a negative index is printed as the
    32-bit unsigned value, so -1 gives the digits 4294967295. *)
Theorem indexedVarDecl_name_inj (p1 p2 : ascii) (i j : Z) (ty1 ty2 : ptr)
    (c1 c2 : ptr) :
  (- 2 ^ 31 ≤ i < 2 ^ 31)%Z → (- 2 ^ 31 ≤ j < 2 ^ 31)%Z →
  var_Name (indexedVarDecl p1 i ty1 c1) = var_Name (indexedVarDecl p2 j ty2 c2)
  ↔ p1 = p2 ∧ i = j.
Proof.
  intros Hi Hj. rewrite !indexedVarDecl_name. split.
  - intros [= -> Hdigits]. split; [done |].
    apply (inj pretty) in Hdigits. by apply APInt32_inj_int.
  - by intros [-> ->].
Qed.

Lemma indexedVarDecl_name_inj_witness :
  (- 2 ^ 31 ≤ 0 < 2 ^ 31)%Z ∧ (- 2 ^ 31 ≤ 1 < 2 ^ 31)%Z ∧
  var_Name (indexedVarDecl "a" 0 600 70) = "a0" ∧
  var_Name (indexedVarDecl "a" (-1) 600 70) = "a4294967295" ∧
  var_Name (indexedVarDecl "a" 0 600 70)
    ≠ var_Name (indexedVarDecl "a" 1 600 70).
Proof.
  split; [lia |]. split; [lia |].
  split; [reflexivity |]. split; [reflexivity |].
  intros Heq.
  apply (indexedVarDecl_name_inj "a" "a" 0 1 600 600 70 70) in Heq;
    [| lia | lia].
  destruct Heq as [_ Heq]. discriminate Heq.
Defined.

End IndexedVarDecl.

Section PayloadSubpattern.
Import DerivedConformance DerivedConformanceSpec.

Context (C : ASTContext) (varPrefix : ascii) (varContext : ptr).

(** The loop over the tuple elements, from any state. *)
Lemma payload_loop (tupleElements : list (string * ptr)) (i0 : Z)
    (bv : list VarDecl) (pats : list (string * Pattern)) :
  foldl
    (λ '(index, boundVars, elementPatterns) tupleElement,
       let payloadVar :=
         indexedVarDecl varPrefix index tupleElement.2 varContext in
       let namedPattern :=
         Pattern_setImplicit (NamedPattern_new payloadVar) in
       let letPattern := VarPattern_createImplicit true namedPattern in
       ((index + 1)%Z, boundVars ++ [payloadVar],
        elementPatterns ++ [(tupleElement.1, letPattern)]))
    (i0, bv, pats) tupleElements
  = ((i0 + Z.of_nat (length tupleElements))%Z,
     bv ++ imap (λ k te,
                   indexedVarDecl varPrefix (i0 + Z.of_nat k) te.2 varContext)
             tupleElements,
     pats ++ imap (λ k te,
                     (te.1,
                      VarPattern_createImplicit true
                        (Pattern_setImplicit
                           (NamedPattern_new
                              (indexedVarDecl varPrefix (i0 + Z.of_nat k)
                                 te.2 varContext)))))
               tupleElements).
Proof.
  revert i0 bv pats.
  induction tupleElements as [| te tes IH]; intros i0 bv pats; simpl.
  - by rewrite Z.add_0_r, !app_nil_r.
  - rewrite IH. rewrite <- !app_assoc. simpl. rewrite Z.add_0_r.
    f_equal; [f_equal; [lia |] |]; do 2 f_equal;
      apply imap_ext; intros k te' _; simpl;
      by replace (i0 + 1 + Z.of_nat k)%Z with (i0 + Z.of_nat (Datatypes.S k))%Z
        by lia.
Qed.

(** The variables of the element patterns are the payload variables. *)
Lemma patternVars_payload_elements (tes : list (string * ptr))
    (f : nat → string * ptr → VarDecl) :
  concat
    (map (λ elt : string * Pattern, patternVars elt.2)
       (imap (λ k te,
                (te.1,
                 VarPattern_createImplicit true
                   (Pattern_setImplicit (NamedPattern_new (f k te)))))
          tes))
  = imap f tes.
Proof.
  revert f. induction tes as [| te tes IH]; intros f; simpl; [done |].
  f_equal. apply IH.
Qed.

(** The labels of the element patterns are the labels of the tuple type. *)
Lemma labels_payload_elements (tes : list (string * ptr))
    (g : nat → string * ptr → Pattern) :
  map fst (imap (λ k te, (te.1, g k te)) tes) = tes.*1.
Proof.
  revert g. induction tes as [| te tes IH]; intros g; simpl; [done |].
  f_equal. apply (IH (g ∘ Datatypes.S)).
Qed.

(** X17.  [enumElementPayloadSubpattern] keeps what [boundVars] held and
    appends to it exactly the variables the returned pattern binds, in the
    pattern's order; for a case without associated values it returns no
    pattern and leaves [boundVars] as it is. *)
Theorem payloadSubpattern_boundVars (enumElementDecl : EnumElementDecl)
    (boundVars : list VarDecl) :
  let r := enumElementPayloadSubpattern C enumElementDecl varPrefix
             varContext boundVars in
  r.2 = boundVars ++ from_option patternVars [] r.1 ∧
  (r.1 = None ↔ hasAssociatedValues enumElementDecl = false).
Proof.
  unfold enumElementPayloadSubpattern.
  destruct (hasAssociatedValues enumElementDecl); simpl.
  - destruct (getAs_TupleType C _) as [tupleElements |]; simpl.
    + rewrite payload_loop. simpl.
      rewrite patternVars_payload_elements. by split.
    + by split.
  - by rewrite app_nil_r.
Qed.

(** X18.  For a payload that is a tuple type the pattern is a tuple pattern
    with one element per tuple element, labelled as the tuple element is,
    and the k-th appended variable is [indexedVarDecl] at index k with the
    type of the k-th tuple element; for any other payload one variable is
    appended, at index 0, with the payload type without its parentheses. *)
Theorem payloadSubpattern_variables (enumElementDecl : EnumElementDecl)
    (boundVars : list VarDecl) :
  hasAssociatedValues enumElementDecl = true →
  let r := enumElementPayloadSubpattern C enumElementDecl varPrefix
             varContext boundVars in
  let argumentType := getArgumentInterfaceType enumElementDecl in
  match getAs_TupleType C argumentType with
  | Some tupleElements =>
      r.2 = boundVars ++
            imap (λ k te,
                    indexedVarDecl varPrefix (Z.of_nat k) te.2 varContext)
              tupleElements ∧
      from_option patternLabels [] r.1 = tupleElements.*1
  | None =>
      r.2 = boundVars ++
            [indexedVarDecl varPrefix 0 (getWithoutParens C argumentType)
               varContext]
  end.
Proof.
  intros Hassoc. unfold enumElementPayloadSubpattern. rewrite Hassoc. simpl.
  destruct (getAs_TupleType C _) as [tupleElements |]; simpl; [| done].
  rewrite payload_loop. simpl. split; [done |].
  apply labels_payload_elements.
Qed.

End PayloadSubpattern.

Section PayloadNames.
Import DerivedConformance DerivedConformanceSpec.

(** Every variable of the returned pattern is an [indexedVarDecl] with the
    prefix given, at an index below the number of variables. *)
Lemma payloadSubpattern_lookup (C : ASTContext) (varPrefix : ascii)
    (varContext : ptr) (enumElementDecl : EnumElementDecl)
    (boundVars : list VarDecl) (k : nat) (v : VarDecl) :
  let r := enumElementPayloadSubpattern C enumElementDecl varPrefix
             varContext boundVars in
  from_option patternVars [] r.1 !! k = Some v →
  ∃ type, v = indexedVarDecl varPrefix (Z.of_nat k) type varContext.
Proof.
  unfold enumElementPayloadSubpattern.
  destruct (hasAssociatedValues enumElementDecl); simpl; [| done].
  destruct (getAs_TupleType C _) as [tupleElements |]; simpl.
  - rewrite payload_loop. simpl. rewrite patternVars_payload_elements.
    rewrite list_lookup_imap. intros Hk.
    destruct (tupleElements !! k) as [te |]; simpl in Hk; [| done].
    injection Hk as <-. by exists te.2.
  - destruct k as [| k]; simpl; [| done]. intros [= <-]. eauto.
Qed.

(** X19.  The variables bound for one case have pairwise different names,
    as long as the payload has no more elements than an [int] counts
    (2^31). *)
Theorem payloadSubpattern_names_distinct (C : ASTContext) (varPrefix : ascii)
    (varContext : ptr) (enumElementDecl : EnumElementDecl)
    (boundVars : list VarDecl) :
  let r := enumElementPayloadSubpattern C enumElementDecl varPrefix
             varContext boundVars in
  (Z.of_nat (length (from_option patternVars [] r.1)) ≤ 2 ^ 31)%Z →
  NoDup (var_Name <$> from_option patternVars [] r.1).
Proof.
  intros r Hlen. apply NoDup_alt. intros i j name Hi Hj.
  rewrite list_lookup_fmap in Hi, Hj.
  destruct (from_option patternVars [] r.1 !! i) as [vi |] eqn:Hvi;
    [| done].
  destruct (from_option patternVars [] r.1 !! j) as [vj |] eqn:Hvj;
    [| done].
  simpl in Hi, Hj.
  pose proof (lookup_lt_Some _ _ _ Hvi) as Hilt.
  pose proof (lookup_lt_Some _ _ _ Hvj) as Hjlt.
  apply payloadSubpattern_lookup in Hvi as [ti ->].
  apply payloadSubpattern_lookup in Hvj as [tj ->].
  assert (Heq : var_Name (indexedVarDecl varPrefix (Z.of_nat i) ti varContext)
                = var_Name
                    (indexedVarDecl varPrefix (Z.of_nat j) tj varContext))
    by congruence.
  rewrite !indexedVarDecl_name in Heq. injection Heq as Hdigits.
  apply (inj pretty) in Hdigits. apply APInt32_inj_int in Hdigits; lia.
Qed.

(** X20.  Variables bound with different prefix characters never share a
    name, whatever the cases and their payloads: the payload variables of
    the two sides of a comparison cannot collide. *)
Theorem payloadSubpattern_prefixes_disjoint (C : ASTContext)
    (prefix1 prefix2 : ascii) (context1 context2 : ptr)
    (elt1 elt2 : EnumElementDecl) (boundVars1 boundVars2 : list VarDecl)
    (v1 v2 : VarDecl) :
  prefix1 ≠ prefix2 →
  v1 ∈ from_option patternVars []
         (enumElementPayloadSubpattern C elt1 prefix1 context1 boundVars1).1 →
  v2 ∈ from_option patternVars []
         (enumElementPayloadSubpattern C elt2 prefix2 context2 boundVars2).1 →
  var_Name v1 ≠ var_Name v2.
Proof.
  intros Hprefix Hv1 Hv2.
  apply list_elem_of_lookup in Hv1 as [k1 Hv1].
  apply list_elem_of_lookup in Hv2 as [k2 Hv2].
  apply payloadSubpattern_lookup in Hv1 as [t1 ->].
  apply payloadSubpattern_lookup in Hv2 as [t2 ->].
  rewrite !indexedVarDecl_name. by intros [= ? _].
Qed.

Lemma payloadSubpattern_variables_witness :
  hasAssociatedValues case_pair = true ∧
  (enumElementPayloadSubpattern sample_ASTContext case_pair "l" 70 []).2 =
    [indexedVarDecl "l" 0 600 70; indexedVarDecl "l" 1 700 70] ∧
  from_option patternLabels []
    (enumElementPayloadSubpattern sample_ASTContext case_pair "l" 70 []).1
  = ["x"; ""].
Proof.
  split; [reflexivity |].
  exact (payloadSubpattern_variables sample_ASTContext "l" 70 case_pair []
           eq_refl).
Defined.

Lemma payloadSubpattern_names_distinct_witness :
  var_Name <$>
    from_option patternVars []
      (enumElementPayloadSubpattern sample_ASTContext case_pair "l" 70 []).1
  = ["l0"; "l1"] ∧
  NoDup (var_Name <$>
           from_option patternVars []
             (enumElementPayloadSubpattern sample_ASTContext case_pair "l" 70
                []).1).
Proof.
  split; [reflexivity |].
  apply (payloadSubpattern_names_distinct sample_ASTContext "l" 70 case_pair
           []).
  simpl. lia.
Defined.

Lemma payloadSubpattern_prefixes_disjoint_witness :
  var_Name (indexedVarDecl "l" 0 600 70)
  ≠ var_Name (indexedVarDecl "r" 0 600 70).
Proof.
  apply (payloadSubpattern_prefixes_disjoint sample_ASTContext "l" "r" 70 70
           case_single case_single [] []).
  - discriminate.
  - simpl. apply list_elem_of_here.
  - simpl. apply list_elem_of_here.
Defined.

End PayloadNames.

Section ConvertEnumToIndex.
Import DerivedConformance DerivedConformanceSpec.

Context (C : ASTContext) (enumType : ptr) (indexVar : VarDecl).


(** The loop over the elements, from any state below 2^32. *)
Lemma convert_loop (elements : list EnumElementDecl) (i0 : N)
    (cases : list ASTNode) :
  i0 < 2 ^ 32 →
  let r :=
    foldl
      (λ '(index, cases) elt,
         let pat :=
           Pattern_setType
             (Pattern_setImplicit (EnumElementPattern_new enumType elt None))
             enumType in
         let labelItem := pat in
         let indexExpr := buildIntegerLiteral C index in
         let indexRef :=
           DeclRefExpr_new indexVar true
             (Some (Ordinary,
                    LValueType_get C
                      (nominal_getDeclaredType C (getIntDecl C)))) in
         let assignExpr :=
           Expr_setType (AssignExpr_new indexRef indexExpr true)
             (TupleType_getEmpty C) in
         let body := BraceStmt_create [ASTNode_Expr assignExpr] in
         (unsigned_succ index,
          cases ++ [CaseStmt_create CaseParentKind_Switch labelItem body]))
      (i0, cases) elements in
  caseEntry <$> r.2 =
  (caseEntry <$> cases) ++
  imap (λ k elt, Some (elt, indexVar, (i0 + N.of_nat k) `mod` 2 ^ 32))
    elements.
Proof.
  revert i0 cases.
  induction elements as [| elt elts IH]; intros i0 cases Hi0; simpl.
  - by rewrite app_nil_r.
  - specialize (IH (unsigned_succ i0)
                  (cases ++
                   [CaseStmt_create CaseParentKind_Switch
                      (Pattern_setType
                         (Pattern_setImplicit
                            (EnumElementPattern_new enumType elt None))
                         enumType)
                      (BraceStmt_create
                         [ASTNode_Expr
                            (Expr_setType
                               (AssignExpr_new
                                  (DeclRefExpr_new indexVar true
                                     (Some (Ordinary,
                                            LValueType_get C
                                              (nominal_getDeclaredType C
                                                 (getIntDecl C)))))
                                  (buildIntegerLiteral C i0) true)
                               (TupleType_getEmpty C))])])).
    simpl in IH. rewrite IH by (apply N.mod_lt; lia).
    rewrite fmap_app, <- app_assoc. f_equal. simpl.
    f_equal.
    + by rewrite N.add_0_r, N.mod_small.
    + apply imap_ext. intros k elt' _. simpl. f_equal. f_equal.
      unfold unsigned_succ.
      rewrite N.Div0.add_mod_idemp_l. f_equal. lia.
Qed.

End ConvertEnumToIndex.

Section ConvertEnumToIndexFacts.
Import DerivedConformance DerivedConformanceSpec.

Context (C : ASTContext) (stmts : list ASTNode) (parentDC : ptr)
  (enumDecl : EnumDecl) (enumVarDecl : VarDecl) (enumType : ptr)
  (funcDecl : ptr) (indexName : string).

(** The statements after the call, with the cases of the switch read. *)
Lemma convertEnumToIndex_switch :
  let r := convertEnumToIndex C stmts parentDC enumDecl enumVarDecl enumType
             funcDecl indexName in
  ∃ indexVar pat enumRef cases,
    r.1 = DeclRefExpr_new indexVar true
            (Some (Ordinary, nominal_getDeclaredType C (getIntDecl C))) ∧
    r.2 = stmts ++
          [PatternBindingDecl_createImplicit StaticSpellingKind_None pat None
             funcDecl;
           SwitchStmt_create enumRef cases] ∧
    var_Name indexVar = indexName ∧ var_DC indexVar = funcDecl ∧
    patternVars pat = [indexVar] ∧
    caseEntry <$> cases =
    imap (λ k elt, Some (elt, indexVar, N.of_nat k `mod` 2 ^ 32))
      (getAllElements enumDecl).
Proof.
  unfold convertEnumToIndex. cbv zeta.
  match goal with
  | |- context [foldl ?f (0, []) ?l] =>
      pose proof (convert_loop C enumType
                    {| var_IsStatic := false;
                       var_Introducer := Var;
                       var_IsCaptureList := false;
                       var_Name := indexName;
                       var_DC := funcDecl;
                       var_InterfaceType :=
                         nominal_getDeclaredType C (getIntDecl C);
                       var_setImplicit := true;
                       var_setHasNonPatternBindingInit := false |}
                    l 0 []) as Hloop;
      cbv zeta in Hloop;
      destruct (foldl f (0, []) l) as [index cases]
  end.
  simpl in *. do 4 eexists. split; [reflexivity |].
  split; [reflexivity |]. split; [reflexivity |]. split; [reflexivity |].
  split; [reflexivity |].
  rewrite Hloop by lia. done.
Qed.

(** X21.  [convertEnumToIndex] keeps the statements it is given and appends
    two: the declaration of the index variable and a switch.  The switch
    has one case per element of the enum, in declaration order; the k-th
    case matches the k-th element and assigns to the index variable the
    literal k (modulo 2^32, the counter being [unsigned]).  The reference
    returned is to that same variable, which has the name given and is
    declared in the function. *)
Theorem convertEnumToIndex_cases :
  let r := convertEnumToIndex C stmts parentDC enumDecl enumVarDecl enumType
             funcDecl indexName in
  ∃ indexVar indexBind switchStmt,
    r.2 = stmts ++ [indexBind; switchStmt] ∧
    referredVar r.1 = Some indexVar ∧
    var_Name indexVar = indexName ∧ var_DC indexVar = funcDecl ∧
    (∃ pat, indexBind =
       PatternBindingDecl_createImplicit StaticSpellingKind_None pat None
         funcDecl ∧ patternVars pat = [indexVar]) ∧
    caseEntry <$> switchCases switchStmt =
    imap (λ k elt, Some (elt, indexVar, N.of_nat k `mod` 2 ^ 32))
      (getAllElements enumDecl).
Proof.
  intros r.
  destruct convertEnumToIndex_switch
    as (indexVar & pat & enumRef & cases & Hret & Hstmts & Hname & Hdc
        & Hpat & Hcases).
  fold r in Hret, Hstmts.
  exists indexVar. do 2 eexists. split; [exact Hstmts |].
  split; [by rewrite Hret |]. split; [done |]. split; [done |].
  split; [by exists pat |]. done.
Qed.

(** X22.  For an enum of at most 2^32 elements the k-th case assigns
    exactly k, so that different cases assign different values: no two
    elements of the enum share an index. *)
Theorem convertEnumToIndex_indices_distinct :
  (N.of_nat (length (getAllElements enumDecl)) ≤ 2 ^ 32) →
  let r := convertEnumToIndex C stmts parentDC enumDecl enumVarDecl enumType
             funcDecl indexName in
  ∃ indexVar switchStmt,
    last r.2 = Some switchStmt ∧
    caseEntry <$> switchCases switchStmt =
    imap (λ k elt, Some (elt, indexVar, N.of_nat k))
      (getAllElements enumDecl) ∧
    ∀ i j ei ej vi vj n,
      (caseEntry <$> switchCases switchStmt) !! i = Some (Some (ei, vi, n)) →
      (caseEntry <$> switchCases switchStmt) !! j = Some (Some (ej, vj, n)) →
      i = j.
Proof.
  intros Hlen r.
  destruct convertEnumToIndex_switch
    as (indexVar & pat & enumRef & cases & _ & Hstmts & _ & _ & _ & Hcases).
  fold r in Hstmts.
  assert (Hexact : caseEntry <$> cases =
            imap (λ k elt, Some (elt, indexVar, N.of_nat k))
              (getAllElements enumDecl)).
  { rewrite Hcases. apply imap_ext. intros k elt Hk. simpl.
    apply lookup_lt_Some in Hk. rewrite N.mod_small; [done | lia]. }
  exists indexVar, (SwitchStmt_create enumRef cases). split.
  { rewrite Hstmts. by rewrite last_app. }
  split; [done |]. simpl.
  intros i j ei ej vi vj n. rewrite Hexact, !list_lookup_imap.
  destruct (getAllElements enumDecl !! i); simpl; [| done].
  destruct (getAllElements enumDecl !! j); simpl; [| done].
  intros [= _ _ Hi] [= _ _ Hj]. lia.
Qed.

End ConvertEnumToIndexFacts.

Section ConvertEnumToIndexWitness.
Import DerivedConformance DerivedConformanceSpec.

Lemma convertEnumToIndex_indices_distinct_witness :
  let r :=
    convertEnumToIndex sample_ASTContext [] 40
      (sample_enum [case_plain; case_single; case_pair])
      (indexedVarDecl "a" 0 620 70) 620 70 "index_a" in
  (option_map (λ e, (elt_getName e.1.1, var_Name e.1.2, e.2)) ∘ caseEntry)
    <$> from_option switchCases [] (last r.2)
  = [Some ("plain", "index_a", 0); Some ("single", "index_a", 1);
     Some ("pair", "index_a", 2)] ∧
  ∃ indexVar switchStmt,
    last r.2 = Some switchStmt ∧
    caseEntry <$> switchCases switchStmt =
    imap (λ k elt, Some (elt, indexVar, N.of_nat k))
      [case_plain; case_single; case_pair] ∧
    ∀ i j ei ej vi vj n,
      (caseEntry <$> switchCases switchStmt) !! i = Some (Some (ei, vi, n)) →
      (caseEntry <$> switchCases switchStmt) !! j = Some (Some (ej, vj, n)) →
      i = j.
Proof.
  intros r. split; [reflexivity |].
  apply (convertEnumToIndex_indices_distinct sample_ASTContext [] 40
           (sample_enum [case_plain; case_single; case_pair])
           (indexedVarDecl "a" 0 620 70) 620 70 "index_a").
  simpl. lia.
Defined.

End ConvertEnumToIndexWitness.

Section DerivableRequirement.
Import DerivedConformance DerivedConformanceSpec DerivableRequirementSpec.

Context (ctx : KnownIdentifiers).

Ltac walk_body :=
  unfold requirementProtocol, getDerivableRequirement_body;
  repeat match goal with
         | |- context [match valueDeclKind ?r with _ => _ end] =>
             destruct (valueDeclKind r) eqn:?
         | |- context [if ?b then _ else _] => destruct b eqn:?
         end.

(** The body calls [getRequirement] at most once, in return position: its
    result is [getRequirement] at the protocol and filter chosen, or
    null. *)
Lemma getDerivableRequirement_body_factor {R : Type}
    (getRequirement : KnownProtocolKind.t → option (ValueDecl → bool) → R)
    (null : R) (requirement : ValueDecl) :
  getDerivableRequirement_body ctx getRequirement null requirement =
  match requirementProtocol ctx requirement with
  | Some (kind, filter) => getRequirement kind filter
  | None => null
  end.
Proof. walk_body; reflexivity. Qed.

(** X23.  The protocol [getDerivableRequirement] looks into is fixed by the
    class of the requirement: a property leads to one of eleven protocols,
    a function to one of ten, an initializer to one of five, an associated
    type to one of five, any other declaration to none.  A filter on the
    lookup is used for [ElementaryFunctions] only, and only for a function
    with base name [pow]. *)
Theorem requirementProtocol_by_class (requirement : ValueDecl)
    (kind : KnownProtocolKind.t) (filter : option (ValueDecl → bool)) :
  requirementProtocol ctx requirement = Some (kind, filter) →
  kind ∈ protocolsOf (valueDeclKind requirement) ∧
  (is_Some filter →
   kind = KnownProtocolKind.ElementaryFunctions ∧
   valueDeclKind requirement = IsFuncDecl ∧
   getBaseName (getName requirement) = "pow").
Proof.
  walk_body; intros [= <- <-]; simpl;
    (split; [repeat constructor |]); intros [f Hf]; try discriminate Hf.
  split; [done |]. split; [done |].
  repeat match goal with
         | H : _ && _ = true |- _ => apply andb_true_iff in H as [? ?]
         end.
  match goal with
  | H : eqName _ "pow" = true |- _ =>
      unfold eqName in H; by apply bool_decide_eq_true in H
  end.
Qed.

(** X24.  Requirements that never lead anywhere: a function that is no
    operator and has a simple name, an initializer with no argument label
    or with more than two, and a property or associated type with a
    compound name. *)
Theorem requirementProtocol_none (requirement : ValueDecl) :
  let name := getName requirement in
  match valueDeclKind requirement with
  | IsFuncDecl => isOperator requirement = false ∧ isCompoundName name = false
  | IsConstructorDecl =>
      length (getArgumentNames name) ≠ 1%nat ∧
      length (getArgumentNames name) ≠ 2%nat
  | IsVarDecl | IsAssociatedTypeDecl => isCompoundName name = true
  | IsOtherValueDecl => True
  end →
  requirementProtocol ctx requirement = None.
Proof.
  unfold requirementProtocol, getDerivableRequirement_body, isSimpleName.
  destruct (valueDeclKind requirement); simpl.
  - intros ->. by simpl.
  - intros [-> ->]. by simpl.
  - intros [H1 H2]. by rewrite !bool_decide_eq_false_2.
  - intros ->. by simpl.
  - done.
Qed.

End DerivableRequirement.

Section GetRequirement.
Import DerivedConformance DerivedConformanceSpec DerivableRequirementSpec.

Context (S : Sema) (C : ASTContext) (ctx : KnownIdentifiers) (L : Lookup)
  (nominal : NominalTypeDecl).

(** The first element that passes a test. *)
Lemma head_filter_Some {A : Type} (p : A → bool) (l : list A) (v : A) :
  head (List.filter p l) = Some v →
  ∃ l1 l2, l = l1 ++ v :: l2 ∧ p v = true ∧ ∀ u, u ∈ l1 → p u = false.
Proof.
  induction l as [| x l IH]; simpl; [done |].
  destruct (p x) eqn:Hx; simpl.
  - intros [= ->]. exists [], l. split; [done |]. split; [done |].
    intros u Hu. by apply elem_of_nil in Hu.
  - intros Hhead. destruct (IH Hhead) as (l1 & l2 & -> & Hv & Hbefore).
    exists (x :: l1), l2. split; [done |]. split; [done |].
    intros u [-> | Hu]%elem_of_cons; auto.
Qed.

(** X25.  A requirement that [getDerivableRequirement] returns comes from
    the protocol fixed by the requirement, which the context has; if the
    nominal has a conformance to that protocol, the conformance is one that
    [derivesProtocolConformance] accepts in the conformance's context; and
    the requirement is the protocol's single requirement of that name or,
    under a filter, a direct lookup result that is a protocol requirement
    declared in a protocol and passes the filter. *)
Theorem getDerivableRequirement_sound (requirement v : ValueDecl) :
  getDerivableRequirement S C ctx L nominal requirement = Some v →
  ∃ kind filter proto,
    requirementProtocol ctx requirement = Some (kind, filter) ∧
    getProtocol L kind = Some proto ∧
    (∀ DC, lookupConformance L nominal proto = Some DC →
           derivesProtocolConformance S C DC nominal proto = true) ∧
    match filter with
    | None => getSingleRequirement L proto (getName requirement) = Some v
    | Some f =>
        v ∈ lookupDirect L proto (getName requirement) ∧
        inProtocolDecl L v = true ∧ isProtocolRequirement L v = true ∧
        f v = true
    end.
Proof.
  unfold getDerivableRequirement.
  rewrite getDerivableRequirement_body_factor.
  destruct (requirementProtocol ctx requirement) as [[kind filter] |];
    [| done].
  unfold getRequirement.
  destruct (getProtocol L kind) as [proto |] eqn:Hproto; [| done].
  intros Hres. exists kind, filter, proto. split; [done |]. split; [done |].
  destruct (lookupConformance L nominal proto) as [DC |] eqn:Hconf.
  - destruct (derivesProtocolConformance S C DC nominal proto) eqn:Hderives;
      simpl in Hres; [| done].
    split; [by intros ? [= <-] |].
    destruct filter as [f |]; [| done].
    apply head_filter_Some in Hres as (l1 & l2 & -> & Hv & _).
    rewrite !negb_orb, !negb_involutive, !andb_true_iff in Hv.
    destruct Hv as [[? ?] ?]. split; [| done].
    apply elem_of_app. right. apply list_elem_of_here.
  - simpl in Hres. split; [done |].
    destruct filter as [f |]; [| done].
    apply head_filter_Some in Hres as (l1 & l2 & -> & Hv & _).
    rewrite !negb_orb, !negb_involutive, !andb_true_iff in Hv.
    destruct Hv as [[? ?] ?]. split; [| done].
    apply elem_of_app. right. apply list_elem_of_here.
Qed.

(** X26.  Once a class conforms to [Equatable], its [==] is not a derivable
    requirement: [getDerivableRequirement] returns null for the operator,
    because [derivesProtocolConformance] refuses [Equatable] on a class. *)
Theorem no_derivable_equals_on_class (requirement : ValueDecl)
    (proto : ProtocolDecl) (DC : ptr) (CD : ClassDecl) :
  valueDeclKind requirement = IsFuncDecl →
  isOperator requirement = true →
  getBaseName (getName requirement) = "==" →
  getProtocol L KnownProtocolKind.Equatable = Some proto →
  getKnownDerivableProtocolKind proto
    = Some KnownDerivableProtocolKind.Equatable →
  lookupConformance L nominal proto = Some DC →
  nominalKind nominal = IsClassDecl CD →
  getDerivableRequirement S C ctx L nominal requirement = None.
Proof.
  intros Hfunc Hop Hbase Hproto Hkind Hconf Hclass.
  unfold getDerivableRequirement, getDerivableRequirement_body.
  rewrite Hfunc, Hop, Hbase. simpl.
  unfold getRequirement. rewrite Hproto, Hconf.
  unfold derivesProtocolConformance, dyn_cast_EnumDecl, isa_StructDecl,
    isa_ClassDecl.
  by rewrite Hkind, Hclass.
Qed.


End GetRequirement.

Section AddMembers.
Import DerivedConformance.

(** X28.  [addMembersToConformanceContext] adds every child once, in the
    order given, to the conformance context and, when there is a parent
    source file, appends the same children in the same order to its
    synthesized declarations, after those already there; without a parent
    source file nothing is recorded. *)
Theorem addMembers_appends (SF : option (list ptr)) (children : list ptr) :
  addMembersToConformanceContext SF children =
  (children, (λ SynthesizedDecls, SynthesizedDecls ++ children) <$> SF).
Proof.
  unfold addMembersToConformanceContext.
  assert (Hloop : ∀ added SF0,
    foldl
      (λ '(added, SF) child,
         (added ++ [child],
          match SF with
          | Some SynthesizedDecls => Some (SynthesizedDecls ++ [child])
          | None => None
          end))
      (added, SF0) children
    = (added ++ children,
       (λ SynthesizedDecls, SynthesizedDecls ++ children) <$> SF0)).
  { induction children as [| child children IH]; intros added SF0; simpl.
    - rewrite app_nil_r. destruct SF0; simpl; by rewrite ?app_nil_r.
    - rewrite IH, <- app_assoc. destruct SF0; simpl; [| done].
      by rewrite <- app_assoc. }
  by rewrite Hloop.
Qed.

End AddMembers.

Section DerivableRequirementWitnesses.
Import DerivedConformance DerivedConformanceSpec DerivableRequirementSpec.

Lemma requirementProtocol_by_class_witness :
  KnownProtocolKind.Equatable ∈ protocolsOf (valueDeclKind equals_operator) ∧
  KnownProtocolKind.ElementaryFunctions ∈ protocolsOf (valueDeclKind pow_n).
Proof.
  split.
  - apply (requirementProtocol_by_class sample_ids equals_operator
             KnownProtocolKind.Equatable None eq_refl).
  - apply (requirementProtocol_by_class sample_ids pow_n
             KnownProtocolKind.ElementaryFunctions
             (Some (λ v,
                match valueDeclKind v with
                | IsFuncDecl =>
                    eqName (secondParameterName v) (secondParameterName pow_n)
                | _ => false
                end)) eq_refl).
Defined.

Lemma requirementProtocol_none_witness :
  requirementProtocol sample_ids (func_named "helper" false false [] "")
  = None.
Proof.
  apply (requirementProtocol_none sample_ids
           (func_named "helper" false false [] "")).
  simpl. split; reflexivity.
Defined.

Lemma getDerivableRequirement_sound_witness :
  getDerivableRequirement sample_Sema sample_ASTContext sample_ids
    sample_Lookup (nominal_of IsStructDecl) equals_operator
  = Some equals_operator ∧
  ∃ kind filter proto,
    requirementProtocol sample_ids equals_operator = Some (kind, filter) ∧
    getProtocol sample_Lookup kind = Some proto ∧
    (∀ DC, lookupConformance sample_Lookup (nominal_of IsStructDecl) proto
           = Some DC →
           derivesProtocolConformance sample_Sema sample_ASTContext DC
             (nominal_of IsStructDecl) proto = true) ∧
    match filter with
    | None =>
        getSingleRequirement sample_Lookup proto (getName equals_operator)
        = Some equals_operator
    | Some f =>
        equals_operator
          ∈ lookupDirect sample_Lookup proto (getName equals_operator) ∧
        inProtocolDecl sample_Lookup equals_operator = true ∧
        isProtocolRequirement sample_Lookup equals_operator = true ∧
        f equals_operator = true
    end.
Proof.
  split; [reflexivity |].
  apply (getDerivableRequirement_sound sample_Sema sample_ASTContext
           sample_ids sample_Lookup (nominal_of IsStructDecl)
           equals_operator equals_operator).
  reflexivity.
Defined.

Lemma no_derivable_equals_on_class_witness :
  getDerivableRequirement sample_Sema sample_ASTContext sample_ids
    sample_Lookup (nominal_of (IsClassDecl {| class_isFinal := true |}))
    equals_operator = None.
Proof.
  apply (no_derivable_equals_on_class sample_Sema sample_ASTContext
           sample_ids sample_Lookup
           (nominal_of (IsClassDecl {| class_isFinal := true |}))
           equals_operator
           {| getKnownProtocolKind := Some KnownProtocolKind.Equatable;
              getKnownDerivableProtocolKind :=
                Some KnownDerivableProtocolKind.Equatable;
              getDeclaredType := 800 |}
           40 {| class_isFinal := true |});
    reflexivity.
Defined.


(** The sample enum with its three cases: the one associated value whose
    type does not conform is the second of [pair]. *)
Example associatedValuesNotConforming_sample :
  associatedValuesNotConformingToProtocol sample_Sema 40
    (sample_enum [case_plain; case_pair; case_single])
    (protocol_of KnownProtocolKind.Hashable
       (Some KnownDerivableProtocolKind.Hashable))
  = [{| param_getName := ""; param_getInterfaceType := 700 |}] ∧
  allAssociatedValuesConformToProtocol sample_Sema 40
    (sample_enum [case_plain; case_single])
    (protocol_of KnownProtocolKind.Hashable
       (Some KnownDerivableProtocolKind.Hashable)) = true ∧
  allAssociatedValuesConformToProtocol sample_Sema 40 (sample_enum [])
    (protocol_of KnownProtocolKind.Hashable
       (Some KnownDerivableProtocolKind.Hashable)) = true.
Proof. repeat split. Qed.

(** A source file that already holds one synthesized declaration. *)
Example addMembers_sample :
  addMembersToConformanceContext (Some [11]) [21; 22] = ([21; 22],
    Some [11; 21; 22]) ∧
  addMembersToConformanceContext None [21; 22] = ([21; 22], None) ∧
  addMembersToConformanceContext (Some [11]) [] = ([], Some [11]).
Proof. repeat split. Qed.

End DerivableRequirementWitnesses.
